(** * Skill templates: pytest fixtures and FastAPI user endpoints

    A shallow embedding of the two template files

    - [agents/skill-templates/1-testing-quality/creating-unit-tests/pytest-fixtures.py]
    - [agents/skill-templates/creating-api-endpoints/fastapi-endpoint-template.py]

    Both files delegate to collaborators they do not define ([db],
    [validate_jwt_token], [hash_password], [Database], the clock, the UUID
    generator).  A collaborator is modelled as a call answered by an
    environment: the environment owns a world [W] and answers each call with
    a value or a failure, possibly changing the world.  Handlers are written
    in a small monad that threads the world, propagates Python exceptions and
    records every collaborator call that was made, in order. *)

From Stdlib Require Import ZArith Ascii String List Lia Bool.
From stdpp Require Import base gmap strings list.

Import ListNotations.
Local Open Scope Z_scope.
Local Open Scope string_scope.
Local Open Scope list_scope.

(* ===================================================================== *)
(** * Python values, exceptions and the effect monad *)
(* ===================================================================== *)

Module Py.

(** The Python values that occur in the dictionaries of the templates. *)
Inductive pyval : Type :=
| VNone
| VBool (b : bool)
| VInt (z : Z)
| VStr (s : string)
| VDatetime (t : Z).

#[global] Instance pyval_eq_dec : EqDecision pyval.
Proof. solve_decision. Defined.

(** Python truth value, as tested by [if x:] and [not x]. *)
Definition truthy (v : pyval) : bool :=
  match v with
  | VNone => false
  | VBool b => b
  | VInt z => negb (Z.eqb z 0)
  | VStr s => negb (String.eqb s EmptyString)
  | VDatetime _ => true
  end.

(** [d.get(k)]: the value, or [None] when the key is absent. *)
Definition dict_get (d : gmap string pyval) (k : string) : pyval :=
  default VNone (d !! k).

(** Exceptions.  [HTTPException] is FastAPI's; [ExternalError] stands for
    any exception raised inside a collaborator, which is not part of the
    web layer and so is never an [HTTPException]. *)
Inductive exn : Type :=
| HTTPException (status_code : Z) (detail : string)
                (headers : list (string * string))
| KeyError (key : string)
| ZeroDivisionError
| ExternalError (what : string).

Definition is_http_exception (e : exn) : bool :=
  match e with HTTPException _ _ _ => true | _ => false end.

Inductive Outcome (A : Type) : Type :=
| Returns (a : A)
| Raises (e : exn).
Arguments Returns {A} a.
Arguments Raises {A} e.

(** What a collaborator answers to a call. *)
Inductive Answer (X : Type) : Type :=
| Ans (x : X)
| Failure (what : string).
Arguments Ans {X} x.
Arguments Failure {X} what.

Section Monad.
Variable E : Type -> Type.
Variable W : Type.
Variable perform : forall X, E X -> W -> Answer X * W.

(** One entry of the call log. *)
Inductive Event : Type :=
| Called {X : Type} (c : E X).

Definition M (A : Type) : Type := W -> Outcome A * W * list Event.

Definition ret {A} (a : A) : M A := fun w => (Returns a, w, []).

Definition raise {A} (e : exn) : M A := fun w => (Raises e, w, []).

Definition bind {A B} (m : M A) (f : A -> M B) : M B := fun w =>
  match m w with
  | (Returns a, w1, t1) =>
      match f a w1 with (r, w2, t2) => (r, w2, t1 ++ t2) end
  | (Raises e, w1, t1) => (Raises e, w1, t1)
  end.

(** [await c(...)] / [c(...)]: ask the environment. *)
Definition call {X} (c : E X) : M X := fun w =>
  match perform X c w with
  | (Ans x, w1) => (Returns x, w1, [Called c])
  | (Failure what, w1) => (Raises (ExternalError what), w1, [Called c])
  end.

(** [try: m  except Exception as e: h e] *)
Definition try_except {A} (m : M A) (h : exn -> M A) : M A := fun w =>
  match m w with
  | (Returns a, w1, t1) => (Returns a, w1, t1)
  | (Raises e, w1, t1) =>
      match h e w1 with (r, w2, t2) => (r, w2, t1 ++ t2) end
  end.

Definition outcome {A} (x : Outcome A * W * list Event) : Outcome A :=
  x.1.1.
End Monad.

(** The world a run ends in, and the calls it made. *)
Definition world {R W T} (x : R * W * T) : W := x.1.2.
Definition log {R W T} (x : R * W * T) : T := x.2.

Arguments Called {E X} c.
Arguments ret {E W A} a.
Arguments raise {E W A} e.
Arguments bind {E W A B} m f.
Arguments call {E W} perform {X} c.
Arguments try_except {E W A} m h.
Arguments outcome {E W A} x.

End Py.

Import Py.

Notation "'let*' x ':=' m 'in' k" := (bind m (fun x => k))
  (at level 10, x name, m at level 100, k at level 200).
Notation "'let*' ' p ':=' m 'in' k" :=
  (bind m (fun x => match x with p => k end))
  (at level 10, p pattern, m at level 100, k at level 200).

(* ===================================================================== *)
(** * pytest-fixtures.py *)
(* ===================================================================== *)

Module Fixtures.

(** A [Database] object, identified by its identity: the fixture and the
    test hold references to one and the same object. *)
Definition Database : Type := nat.

Record User : Type := { user_id : option Z; user_username : string }.

(** Calls into [your_module]. *)
Inductive Call : Type -> Type :=
| Database_connect (name : string) : Call Database
| create_tables (db : Database) : Call unit
| drop_tables (db : Database) : Call unit
| close (db : Database) : Call unit
| User_create (db : Database) (username : string) : Call User.

Section Fixtures.
Variable W : Type.
Variable perform : forall X, Call X -> W -> Answer X * W.

Abbreviation M := (Py.M Call W).
Abbreviation call := (Py.call perform).

(** A generator fixture: the code up to [yield] produces the resource
    together with the code that follows the [yield]. *)
Definition Generator (A : Type) : Type := M (A * M unit).

Definition yield {A} (a : A) (rest : M unit) : Generator A :=
  ret (a, rest).

Definition database_connection : Generator Database :=
  let* db := call (Database_connect "test_db") in
  let* _ := call (create_tables db) in
  yield db
    (let* _ := call (drop_tables db) in
     call (close db)).

(** The code after the [yield] of [database_connection], on its own. *)
Definition teardown_of (db : Database) : M unit :=
  let* _ := call (drop_tables db) in
  call (close db).

(** pytest's protocol for a test that requests one generator fixture:
    run the fixture to its [yield], run the test body on the yielded
    value, then resume the generator whatever the test did.  A failure
    of the set-up skips both the body and the teardown. *)
Definition run_test {A B} (fixture : Generator A) (test : A -> M B)
  : M B :=
  let* '(resource, teardown) := fixture in
  fun w =>
    match test resource w with
    | (r, w1, t1) =>
        match teardown w1 with
        | (Returns _, w2, t2) => (r, w2, t1 ++ t2)
        | (Raises e, w2, t2) => (Raises e, w2, t1 ++ t2)
        end
    end.

(** [TestUserService.test_create_user]; a failed [assert] is an
    exception of the test's own. *)
Definition test_create_user (database_connection : Database) : M unit :=
  let* user := call (User_create database_connection "newuser") in
  match user_id user with
  | Some _ => ret tt
  | None => raise (ExternalError "AssertionError")
  end.
End Fixtures.

End Fixtures.

(* ===================================================================== *)
(** * fastapi-endpoint-template.py *)
(* ===================================================================== *)

Module Str.

(** Python [str] restricted to code points below 256: one [ascii] per
    code point, so that [len] is [String.length]. *)

(** [s.startswith(p)] *)
Fixpoint startswith (s p : string) {struct p} : bool :=
  match p with
  | EmptyString => true
  | String a p' =>
      match s with
      | EmptyString => false
      | String b s' => Ascii.eqb a b && startswith s' p'
      end
  end.

(** [s.replace(old, new)] for a non-empty [old]: scan from the left, and
    at each occurrence emit [new] and skip the rest of the occurrence. *)
Fixpoint replace_from (old new : string) (skip : nat) (s : string)
  : string :=
  match s with
  | EmptyString => EmptyString
  | String c s' =>
      match skip with
      | S k => replace_from old new k s'
      | O =>
          if startswith s old
          then new ++ replace_from old new (String.length old - 1)%nat s'
          else String c (replace_from old new O s')
      end
  end.

(** [s.replace(old, new)] for the empty [old]: [new] before every
    character and at the end. *)
Fixpoint interleave (new s : string) : string :=
  match s with
  | EmptyString => new
  | String c s' => new ++ String c (interleave new s')
  end.

Definition replace (s old new : string) : string :=
  match old with
  | EmptyString => interleave new s
  | String _ _ => replace_from old new O s
  end.
Arguments replace : simpl never.

Definition between (lo hi n : N) : bool := (lo <=? n)%N && (n <=? hi)%N.

(** [c.isalpha() or c.isdecimal() or c.isdigit() or c.isnumeric()] for a
    code point below 256 (Unicode categories L*, Nd and the digit and
    numeric properties). *)
Definition char_isalnum (c : ascii) : bool :=
  let n := N_of_ascii c in
  between 48 57 n || between 65 90 n || between 97 122 n
  || between 170 170 n || between 178 179 n || between 181 181 n
  || between 185 186 n || between 188 190 n || between 192 214 n
  || between 216 246 n || between 248 255 n.

Fixpoint all_chars (f : ascii -> bool) (s : string) : bool :=
  match s with
  | EmptyString => true
  | String c s' => f c && all_chars f s'
  end.

(** [s.isalnum()]: at least one character and all alphanumeric. *)
Definition isalnum (s : string) : bool :=
  match s with
  | EmptyString => false
  | String _ _ => all_chars char_isalnum s
  end.

(** Lowercase mapping of a code point below 256. *)
Definition char_lower (c : ascii) : ascii :=
  let n := N_of_ascii c in
  if between 65 90 n || between 192 214 n || between 216 222 n
  then ascii_of_N (n + 32)
  else c.

Fixpoint map_chars (f : ascii -> ascii) (s : string) : string :=
  match s with
  | EmptyString => EmptyString
  | String c s' => String (f c) (map_chars f s')
  end.

(** [s.lower()] *)
Definition lower (s : string) : string := map_chars char_lower s.

(** [len(s)] *)
Definition len (s : string) : Z := Z.of_nat (String.length s).

End Str.

Module Api.

Abbreviation dict := (gmap string pyval).

(** ** Request and response schemas *)

(** A body submitted for [UserCreate], before validation; [None] is a
    field that is absent or [null]. *)
Record UserCreateInput : Type := {
  in_username : option string;
  in_email : option string;
  in_password : option string;
  in_full_name : option string
}.

(** A validated [UserCreate]. *)
Record UserCreate : Type := {
  uc_username : string;
  uc_email : string;
  uc_password : string;
  uc_full_name : option string
}.

(** A validated [UserUpdate].  The outer [option] says whether the field
    was set by the client, as [dict(exclude_unset=True)] observes it. *)
Record UserUpdate : Type := {
  uu_email : option (option string);
  uu_full_name : option (option string);
  uu_password : option (option string)
}.

(** A user as the store hands it out: the columns given to
    [db.create_user]. *)
Record User : Type := {
  u_id : string;
  u_username : string;
  u_email : string;
  u_password_hash : string;
  u_full_name : option string;
  u_created_at : Z;
  u_updated_at : Z
}.

Record UserResponse : Type := {
  r_id : string;
  r_username : string;
  r_email : string;
  r_full_name : option string;
  r_created_at : Z;
  r_updated_at : Z
}.

(** [response_model=UserResponse] with [from_attributes]. *)
Definition to_response (u : User) : UserResponse :=
  {| r_id := u_id u; r_username := u_username u; r_email := u_email u;
     r_full_name := u_full_name u; r_created_at := u_created_at u;
     r_updated_at := u_updated_at u |}.

Record UserListResponse : Type := {
  data : list UserResponse;
  pagination : dict
}.

(** ** Validation of [UserCreate] *)

Inductive FieldError : Type :=
| Missing (field : string)
| TooShort (field : string) (min_length : Z)
| TooLong (field : string) (max_length : Z)
| NotAnEmail (field : string)
| ValueError (field : string) (msg : string).

(** The validator attached to [username]. *)
Definition username_alphanumeric (v : string) : FieldError + string :=
  if negb (Str.isalnum v)
  then inl (ValueError "username" "Username must be alphanumeric")
  else inr (Str.lower v).

(** The constraints of [Field(min_length=.., max_length=..)]. *)
Definition check_length (field : string) (min_length max_length : option Z)
    (v : string) : FieldError + string :=
  match min_length with
  | Some lo =>
      if (Str.len v <? lo)%Z then inl (TooShort field lo)
      else match max_length with
           | Some hi =>
               if (hi <? Str.len v)%Z then inl (TooLong field hi) else inr v
           | None => inr v
           end
  | None =>
      match max_length with
      | Some hi => if (hi <? Str.len v)%Z then inl (TooLong field hi) else inr v
      | None => inr v
      end
  end.

Definition required (field : string) (v : option string)
  : FieldError + string :=
  match v with
  | Some s => inr s
  | None => inl (Missing field)
  end.

Definition and_then {A B} (r : FieldError + A) (f : A -> FieldError + B)
  : FieldError + B :=
  match r with
  | inl e => inl e
  | inr a => f a
  end.

Section Validation.
(** [EmailStr]: the e-mail validation library, which answers with the
    normalised address or rejects. *)
Variable validate_email : string -> option string.

Definition validate_username (v : option string) : FieldError + string :=
  and_then (required "username" v) (fun s =>
  and_then (check_length "username" (Some 3) (Some 50) s)
           username_alphanumeric).

Definition validate_email_field (v : option string)
  : FieldError + string :=
  and_then (required "email" v) (fun s =>
  match validate_email s with
  | Some e => inr e
  | None => inl (NotAnEmail "email")
  end).

Definition validate_password (v : option string) : FieldError + string :=
  and_then (required "password" v)
           (check_length "password" (Some 8) None).

Definition validate_full_name (v : option string)
  : FieldError + option string :=
  match v with
  | None => inr None
  | Some s =>
      and_then (check_length "full_name" None (Some 100) s)
               (fun s' => inr (Some s'))
  end.

Definition errors_of {A} (r : FieldError + A) : list FieldError :=
  match r with
  | inl e => [e]
  | inr _ => []
  end.

(** Construction of a [UserCreate] from a body: every field is validated, and the model is
    built when no field reported an error; otherwise the errors of all
    fields are raised together as one [ValidationError]. *)
Definition UserCreate_validate (input : UserCreateInput)
  : list FieldError + UserCreate :=
  let username := validate_username (in_username input) in
  let email := validate_email_field (in_email input) in
  let password := validate_password (in_password input) in
  let full_name := validate_full_name (in_full_name input) in
  match username, email, password, full_name with
  | inr u, inr e, inr p, inr f =>
      inr {| uc_username := u; uc_email := e; uc_password := p;
             uc_full_name := f |}
  | _, _, _, _ =>
      inl (errors_of username ++ errors_of email ++ errors_of password
           ++ errors_of full_name)
  end.
End Validation.

(** ** Collaborators *)

(** The calls the handlers make to code the template leaves undefined,
    and to the clock and the UUID generator. *)
Inductive Call : Type -> Type :=
| validate_jwt_token (token : string) : Call dict
| hash_password (password : pyval) : Call string
| uuid4 : Call string
| utcnow : Call Z
| db_find_user_by_username_or_email (username email : string)
  : Call (option User)
| db_create_user (id username email password_hash : string)
    (full_name : option string) (created_at updated_at : Z) : Call User
| db_list_users (offset limit : Z) (search : option string)
  : Call (list User * Z)
| db_get_user (user_id : string) : Call (option User)
| db_update_user (user_id : string) (update_data : dict) : Call User
| db_delete_user (user_id : string) : Call unit.

(** ** HTTP requests and responses *)

Inductive Content : Type :=
| JSON_user (u : UserResponse)
| JSON_user_list (l : UserListResponse)
| JSON_object (d : dict)
| No_content.

Record Response : Type := {
  status_code : Z;
  headers : list (string * string);
  content : Content
}.

(** A request that passed request parsing, one constructor per route. *)
Inductive Request : Type :=
| POST_users (authorization : option string) (user_data : UserCreate)
| GET_users (authorization : option string) (page limit : Z)
    (search : option string)
| GET_user (authorization : option string) (user_id : string)
| PATCH_user (authorization : option string) (user_id : string)
    (user_data : UserUpdate)
| DELETE_user (authorization : option string) (user_id : string)
| GET_health.

Definition HTTP_401_UNAUTHORIZED : Z := 401.
Definition HTTP_403_FORBIDDEN : Z := 403.
Definition HTTP_404_NOT_FOUND : Z := 404.
Definition HTTP_409_CONFLICT : Z := 409.
Definition HTTP_201_CREATED : Z := 201.
Definition HTTP_204_NO_CONTENT : Z := 204.

(** [d[k]] *)
Definition subscript {E W} (d : dict) (k : string) : Py.M E W pyval :=
  match d !! k with
  | Some v => ret v
  | None => raise (KeyError k)
  end.

(** [a // b] on Python integers. *)
Definition floordiv {E W} (a b : Z) : Py.M E W Z :=
  if Z.eqb b 0 then raise ZeroDivisionError else ret (a / b).

(** [user_data.dict(exclude_unset=True)] *)
Definition set_field (k : string) (v : option (option string)) (d : dict)
  : dict :=
  match v with
  | None => d
  | Some None => <[k := VNone]> d
  | Some (Some s) => <[k := VStr s]> d
  end.

Definition UserUpdate_dict (user_data : UserUpdate) : dict :=
  set_field "password" (uu_password user_data)
    (set_field "full_name" (uu_full_name user_data)
       (set_field "email" (uu_email user_data) ∅)).

Section Handlers.
Variable W : Type.
Variable perform : forall X, Call X -> W -> Answer X * W.

Abbreviation M := (Py.M Call W).
Abbreviation call := (Py.call perform).

(** *** Dependencies *)

Definition get_current_user (authorization : option string) : M dict :=
  match authorization with
  | None =>
      raise (HTTPException HTTP_401_UNAUTHORIZED
               "Invalid or missing token" [("WWW-Authenticate", "Bearer")])
  | Some authorization =>
      if negb (truthy (VStr authorization))
         || negb (Str.startswith authorization "Bearer ")
      then
        raise (HTTPException HTTP_401_UNAUTHORIZED
                 "Invalid or missing token"
                 [("WWW-Authenticate", "Bearer")])
      else
        let token := Str.replace authorization "Bearer " EmptyString in
        try_except
          (let* user := call (validate_jwt_token token) in
           ret user)
          (fun e =>
             raise (HTTPException HTTP_401_UNAUTHORIZED "Invalid token"
                      [("WWW-Authenticate", "Bearer")]))
  end.

Definition require_admin (current_user : dict) : M dict :=
  if negb (truthy (dict_get current_user "is_admin"))
  then raise (HTTPException HTTP_403_FORBIDDEN "Admin access required" [])
  else ret current_user.

(** *** CRUD endpoints *)

Definition create_user (user_data : UserCreate) (current_user : dict)
  : M User :=
  let* existing_user :=
    call (db_find_user_by_username_or_email
            (uc_username user_data) (uc_email user_data)) in
  match existing_user with
  | Some _ =>
      raise (HTTPException HTTP_409_CONFLICT
               "Username or email already exists" [])
  | None =>
      let* password_hash :=
        call (hash_password (VStr (uc_password user_data))) in
      let* id := call uuid4 in
      let* created_at := call utcnow in
      let* updated_at := call utcnow in
      let* new_user :=
        call (db_create_user id (uc_username user_data)
                (uc_email user_data) password_hash
                (uc_full_name user_data) created_at updated_at) in
      ret new_user
  end.

Definition list_users (page limit : Z) (search : option string)
    (current_user : dict) : M (list User * dict) :=
  let limit := if (100 <? limit)%Z then 100 else limit in
  let offset := (page - 1) * limit in
  let* '(users, total) := call (db_list_users offset limit search) in
  let* total_pages := floordiv (total + limit - 1) limit in
  ret (users,
       <["page" := VInt page]>
         (<["per_page" := VInt limit]>
            (<["total" := VInt total]>
               (<["total_pages" := VInt total_pages]> ∅)))).

Definition not_found (user_id : string) : exn :=
  HTTPException HTTP_404_NOT_FOUND
    ("User with ID " ++ user_id ++ " not found") [].

Definition get_user (user_id : string) (current_user : dict) : M User :=
  let* user := call (db_get_user user_id) in
  match user with
  | None => raise (not_found user_id)
  | Some user => ret user
  end.

Definition update_user (user_id : string) (user_data : UserUpdate)
    (current_user : dict) : M User :=
  let* requester_id := subscript current_user "id" in
  if bool_decide (VStr user_id <> requester_id)
     && negb (truthy (dict_get current_user "is_admin"))
  then
    raise (HTTPException HTTP_403_FORBIDDEN "Can only update own profile"
             [])
  else
    let* existing_user := call (db_get_user user_id) in
    match existing_user with
    | None => raise (not_found user_id)
    | Some _ =>
        let update_data := UserUpdate_dict user_data in
        let* update_data :=
          match update_data !! "password" with
          | Some password =>
              let* h := call (hash_password password) in
              ret (<["password_hash" := VStr h]>
                     (delete "password" update_data))
          | None => ret update_data
          end in
        let* now := call utcnow in
        let update_data := <["updated_at" := VDatetime now]> update_data in
        let* updated_user := call (db_update_user user_id update_data) in
        ret updated_user
    end.

Definition delete_user (user_id : string) (admin : dict) : M unit :=
  let* existing_user := call (db_get_user user_id) in
  match existing_user with
  | None => raise (not_found user_id)
  | Some _ =>
      let* _ := call (db_delete_user user_id) in
      ret tt
  end.

Definition health_check : M dict :=
  let* now := call utcnow in
  ret (<["status" := VStr "healthy"]> (<["timestamp" := VDatetime now]> ∅)).
End Handlers.

(** ** Error handlers and the application *)

Definition JSONResponse (status_code : Z) (content : dict) : Response :=
  {| status_code := status_code; headers := [];
     content := JSON_object content |}.

(** Registered with [@app.exception_handler(Exception)]. *)
Definition generic_exception_handler (request : Request) (exc : exn)
  : Response :=
  JSONResponse 500
    (<["error" := VStr "Internal server error"]>
       (<["code" := VStr "INTERNAL_ERROR"]> ∅)).

(** The handler FastAPI installs for [HTTPException]. *)
Definition http_exception_handler (request : Request) (status : Z)
    (detail : string) (hdrs : list (string * string)) : Response :=
  {| status_code := status; headers := hdrs;
     content := JSON_object (<["detail" := VStr detail]> ∅) |}.

(** Handlers are looked up by the class of the exception, the most
    specific class first: [HTTPException] has its own handler, every
    other exception reaches the one registered for [Exception]. *)
Definition handle_exception (request : Request) (exc : exn) : Response :=
  match exc with
  | HTTPException status detail hdrs =>
      http_exception_handler request status detail hdrs
  | _ => generic_exception_handler request exc
  end.

Definition list_response (r : list User * dict) : Content :=
  JSON_user_list {| data := map to_response r.1; pagination := r.2 |}.

Section App.
Variable W : Type.
Variable perform : forall X, Call X -> W -> Answer X * W.

Abbreviation M := (Py.M Call W).

(** Run a route: a returned value becomes a response with the status
    code of the decorator, an exception goes to its handler. *)
Definition serve {A} (request : Request) (success : Z)
    (encode : A -> Content) (m : M A)
  : W -> Response * W * list (Event Call) := fun w =>
  match m w with
  | (Returns a, w1, t) =>
      ({| status_code := success; headers := []; content := encode a |},
       w1, t)
  | (Raises e, w1, t) => (handle_exception request e, w1, t)
  end.

(** The route table.  [Depends(..)] parameters are resolved, in
    dependency order, before the handler is called. *)
Definition app (request : Request)
  : W -> Response * W * list (Event Call) :=
  match request with
  | POST_users authorization user_data =>
      serve request HTTP_201_CREATED (fun u => JSON_user (to_response u))
        (let* current_user := get_current_user W perform authorization in
         create_user W perform user_data current_user)
  | GET_users authorization page limit search =>
      serve request 200 list_response
        (let* current_user := get_current_user W perform authorization in
         list_users W perform page limit search current_user)
  | GET_user authorization user_id =>
      serve request 200 (fun u => JSON_user (to_response u))
        (let* current_user := get_current_user W perform authorization in
         get_user W perform user_id current_user)
  | PATCH_user authorization user_id user_data =>
      serve request 200 (fun u => JSON_user (to_response u))
        (let* current_user := get_current_user W perform authorization in
         update_user W perform user_id user_data current_user)
  | DELETE_user authorization user_id =>
      serve request HTTP_204_NO_CONTENT (fun _ => No_content)
        (let* current_user := get_current_user W perform authorization in
         let* admin := require_admin W current_user in
         delete_user W perform user_id admin)
  | GET_health =>
      serve request 200 JSON_object (health_check W perform)
  end.

Definition response (x : Response * W * list (Event Call)) : Response :=
  x.1.1.

(** What remains of a route under [/api/users] once its
    [get_current_user] dependency has returned [current_user]. *)
Definition authenticated (request : Request) (current_user : dict)
  : W -> Response * W * list (Event Call) :=
  match request with
  | POST_users _ user_data =>
      serve request HTTP_201_CREATED (fun u => JSON_user (to_response u))
        (create_user W perform user_data current_user)
  | GET_users _ page limit search =>
      serve request 200 list_response
        (list_users W perform page limit search current_user)
  | GET_user _ user_id =>
      serve request 200 (fun u => JSON_user (to_response u))
        (get_user W perform user_id current_user)
  | PATCH_user _ user_id user_data =>
      serve request 200 (fun u => JSON_user (to_response u))
        (update_user W perform user_id user_data current_user)
  | DELETE_user _ user_id =>
      serve request HTTP_204_NO_CONTENT (fun _ => No_content)
        (let* admin := require_admin W current_user in
         delete_user W perform user_id admin)
  | GET_health => app request
  end.

(** A run that follows the calls [t] already made. *)
Definition following {R} (t : list (Event Call))
    (x : R * W * list (Event Call)) : R * W * list (Event Call) :=
  (x.1, t ++ x.2).
End App.

(** The [Authorization] header of a request to an [/api/users] route. *)
Definition authorization_of (request : Request) : option string :=
  match request with
  | POST_users a _ | GET_users a _ _ _ | GET_user a _ | PATCH_user a _ _
  | DELETE_user a _ => a
  | GET_health => None
  end.

(** The [{user_id}] of the path, on the routes that have one. *)
Definition user_id_of (request : Request) : option string :=
  match request with
  | GET_user _ user_id | PATCH_user _ user_id _ | DELETE_user _ user_id =>
      Some user_id
  | _ => None
  end.

Definition is_users_route (request : Request) : bool :=
  match request with
  | GET_health => false
  | _ => true
  end.

(** Which part of the application a logged call belongs to. *)
Definition is_store_write (e : Event Call) : bool :=
  match e with
  | Called (db_create_user _ _ _ _ _ _ _) => true
  | Called (db_update_user _ _) => true
  | Called (db_delete_user _) => true
  | _ => false
  end.

(** The [created_at] and [updated_at] of every record the log shows
    being created. *)
Definition created_timestamps (t : list (Event Call)) : list (Z * Z) :=
  flat_map (fun e => match e with
                     | Called (db_create_user _ _ _ _ _ c u) => [(c, u)]
                     | _ => []
                     end) t.

Definition is_validate_call (e : Event Call) : bool :=
  match e with
  | Called (validate_jwt_token _) => true
  | _ => false
  end.

(** ** Proof support *)

(** The token [get_current_user] extracts from a header. *)
Abbreviation token_of s := (Str.replace s "Bearer " EmptyString).

Create HintDb status.
#[export] Hint Unfold HTTP_401_UNAUTHORIZED HTTP_403_FORBIDDEN
  HTTP_404_NOT_FOUND HTTP_409_CONFLICT HTTP_201_CREATED
  HTTP_204_NO_CONTENT : status.

(** Symbolic execution of a handler: unfold the monad and split on what
    the environment answers, on dictionary lookups and on tests. *)
Ltac unfold_monad :=
  unfold serve, response, bind, call, ret, raise, try_except, subscript,
    floordiv, outcome, world, log in *.

Ltac answer perform :=
  match goal with
  | H : perform ?X ?c ?w = _ |- context [perform ?X ?c ?w] => rewrite H
  | |- context [perform ?X ?c ?w] =>
      let H := fresh "Hcall" in
      destruct (perform X c w) as [[?|?] ?] eqn:H
  end.

Ltac branch :=
  match goal with
  | |- context [match ?d !! ?k with _ => _ end] =>
      let H := fresh "Hkey" in destruct (d !! k) eqn:H
  | |- context [if ?b then _ else _] =>
      let H := fresh "Htest" in destruct b eqn:H
  | |- context [match ?o with Some _ => _ | None => _ end] =>
      is_var o; destruct o
  | |- context [let (_, _) := ?p in _] => is_var p; destruct p
  end.

(** Turn the boolean tests left in the context into propositions. *)
Ltac decode :=
  repeat match goal with
    | H : _ && _ = true |- _ => apply andb_true_iff in H as [? ?]
    | H : _ && _ = false |- _ => apply andb_false_iff in H as [?|?]
    | H : bool_decide _ = true |- _ => apply bool_decide_eq_true in H
    | H : bool_decide _ = false |- _ => apply bool_decide_eq_false in H
    | H : negb _ = true |- _ => apply negb_true_iff in H
    | H : negb _ = false |- _ => apply negb_false_iff in H
    end.

Ltac execute perform :=
  unfold_monad; simpl;
  repeat (first [answer perform | branch]; unfold_monad; simpl).

End Api.

(* ===================================================================== *)
(** * Reference environments *)
(* ===================================================================== *)

(** A database module for the fixtures: the world counts the objects
    handed out and remembers which of them are open. *)
Module TestDb.
Import Fixtures.

Record World : Type := { next_object : nat; open_connections : list nat }.

Definition perform (X : Type) (c : Call X) (w : World) : Answer X * World :=
  match c in Call X return Answer X * World with
  | Database_connect _ =>
      (Ans (next_object w),
       {| next_object := S (next_object w);
          open_connections := next_object w :: open_connections w |})
  | create_tables _ => (Ans tt, w)
  | drop_tables _ => (Ans tt, w)
  | close db =>
      (Ans tt,
       {| next_object := next_object w;
          open_connections :=
            filter (fun d => negb (Nat.eqb d db)) (open_connections w) |})
  | User_create _ username =>
      (Ans {| user_id := Some 1; user_username := username |}, w)
  end.

Definition initial : World := {| next_object := 7; open_connections := [] |}.
End TestDb.

(** An in-memory store, a token table, a prefixing password hash, a clock
    that advances by one at every reading and a counter for UUIDs. *)
Module InMemory.
Import Api.

Record World : Type := {
  clock : Z;
  serial : nat;
  rows : list User
}.

Definition alice : dict :=
  <["id" := VStr "u1"]> (<["is_admin" := VBool false]> ∅).
Definition root : dict :=
  <["id" := VStr "u0"]> (<["is_admin" := VBool true]> ∅).
(** A token payload without an [id] claim. *)
Definition guest : dict := <["is_admin" := VBool false]> ∅.

Definition same_user (username email : string) (u : User) : bool :=
  String.eqb (u_username u) username || String.eqb (u_email u) email.

Definition has_id (user_id : string) (u : User) : bool :=
  String.eqb (u_id u) user_id.

Definition matches (search : option string) (u : User) : bool :=
  match search with
  | None => true
  | Some s => String.eqb (u_username u) s || String.eqb (u_email u) s
  end.

Definition touch (update_data : dict) (u : User) : User :=
  {| u_id := u_id u; u_username := u_username u;
     u_email := match update_data !! "email" with
                | Some (VStr e) => e
                | _ => u_email u
                end;
     u_password_hash := match update_data !! "password_hash" with
                        | Some (VStr h) => h
                        | _ => u_password_hash u
                        end;
     u_full_name := match update_data !! "full_name" with
                    | Some (VStr n) => Some n
                    | Some _ => None
                    | None => u_full_name u
                    end;
     u_created_at := u_created_at u;
     u_updated_at := match update_data !! "updated_at" with
                     | Some (VDatetime t) => t
                     | _ => u_updated_at u
                     end |}.

Definition with_rows (w : World) (l : list User) : World :=
  {| clock := clock w; serial := serial w; rows := l |}.

Definition perform (X : Type) (c : Call X) (w : World) : Answer X * World :=
  match c in Call X return Answer X * World with
  | validate_jwt_token token =>
      if String.eqb token "alice-token" then (Ans alice, w)
      else if String.eqb token "root-token" then (Ans root, w)
      else if String.eqb token "guest-token" then (Ans guest, w)
      else (Failure "InvalidTokenError", w)
  | hash_password (VStr s) => (Ans ("hashed:" ++ s)%string, w)
  | hash_password _ => (Failure "TypeError", w)
  | uuid4 =>
      (Ans (String.concat EmptyString (repeat "u" (S (serial w)))),
       {| clock := clock w; serial := S (serial w); rows := rows w |})
  | utcnow =>
      (Ans (clock w),
       {| clock := clock w + 1; serial := serial w; rows := rows w |})
  | db_find_user_by_username_or_email username email =>
      (Ans (List.find (same_user username email) (rows w)), w)
  | db_create_user id username email password_hash full_name
      created_at updated_at =>
      let u := {| u_id := id; u_username := username; u_email := email;
                  u_password_hash := password_hash;
                  u_full_name := full_name; u_created_at := created_at;
                  u_updated_at := updated_at |} in
      (Ans u, with_rows w (rows w ++ [u]))
  | db_list_users offset limit search =>
      let found := List.filter (matches search) (rows w) in
      (Ans (firstn (Z.to_nat limit) (skipn (Z.to_nat offset) found),
            Z.of_nat (List.length found)), w)
  | db_get_user user_id => (Ans (List.find (has_id user_id) (rows w)), w)
  | db_update_user user_id update_data =>
      match List.find (has_id user_id) (rows w) with
      | Some u =>
          (Ans (touch update_data u),
           with_rows w
             (List.map (fun r => if has_id user_id r
                                 then touch update_data r else r)
                (rows w)))
      | None => (Failure "NoResultFound", w)
      end
  | db_delete_user user_id =>
      (Ans tt,
       with_rows w
         (List.filter (fun r => negb (has_id user_id r)) (rows w)))
  end.

Definition bob : User :=
  {| u_id := "u1"; u_username := "bob"; u_email := "bob@example.com";
     u_password_hash := "hashed:secret-secret"; u_full_name := None;
     u_created_at := 10; u_updated_at := 10 |}.

Definition initial : World := {| clock := 1000; serial := 0; rows := [bob] |}.

Definition carol : UserCreate :=
  {| uc_username := "carol"; uc_email := "carol@example.com";
     uc_password := "correct horse"; uc_full_name := Some "Carol" |}.

(** An e-mail check good enough to run examples: one [@], not first. *)
Fixpoint count_at (s : string) : nat :=
  match s with
  | EmptyString => O
  | String c s' =>
      if Ascii.eqb c "@"%char then S (count_at s') else count_at s'
  end.

Definition validate_email (s : string) : option string :=
  if Nat.eqb (count_at s) 1 && negb (Str.startswith s "@")
  then Some s else None.
End InMemory.

(** A database that stops working: the world is the number of calls that
    still succeed. *)
Module FlakyDb.
Import Fixtures.

Definition budget {X} (x : X) (w : nat) : Answer X * nat :=
  match w with
  | O => (Failure "OperationalError", O)
  | S k => (Ans x, k)
  end.

Definition perform (X : Type) (c : Call X) (w : nat) : Answer X * nat :=
  match c in Call X return Answer X * nat with
  | Database_connect _ => budget 7%nat w
  | create_tables _ => budget tt w
  | drop_tables _ => budget tt w
  | close _ => budget tt w
  | User_create _ username =>
      budget {| user_id := Some 1; user_username := username |} w
  end.
End FlakyDb.

(* ===================================================================== *)
(** * The remaining fixtures of pytest-fixtures.py *)
(* ===================================================================== *)

(** pytest's fixture protocol, for any set of calls. *)
Module Pytest.

Section Protocol.
Variable E : Type -> Type.
Variable W : Type.

(** A generator fixture: the resource and the code after the [yield]. *)
Definition Generator (A : Type) : Type :=
  Py.M E W (A * Py.M E W unit).

Definition yield {A} (a : A) (rest : Py.M E W unit) : Generator A :=
  ret (a, rest).

(** Function scope: set-up, test body, teardown, for one test. *)
Definition run_test {A B} (fixture : Generator A)
    (test : A -> Py.M E W B) : Py.M E W B :=
  let* '(resource, teardown) := fixture in
  fun w =>
    match test resource w with
    | (r, w1, t1) =>
        match teardown w1 with
        | (Returns _, w2, t2) => (r, w2, t1 ++ t2)
        | (Raises e, w2, t2) => (Raises e, w2, t1 ++ t2)
        end
    end.

(** The tests of a module, one after the other on one resource; a test
    that fails does not stop the ones that follow. *)
Fixpoint run_tests {A} (resource : A) (tests : list (A -> Py.M E W unit))
  : W -> list (Outcome unit) * W * list (Event E) := fun w =>
  match tests with
  | [] => ([], w, [])
  | test :: rest =>
      match test resource w with
      | (r, w1, t1) =>
          match run_tests resource rest w1 with
          | (rs, w2, t2) => (r :: rs, w2, t1 ++ t2)
          end
      end
  end.

(** Module scope: the fixture is set up once, every test of the module
    receives the resource it yielded, and the teardown runs once after the
    last test.  When the set-up fails no test runs. *)
Definition run_module {A} (fixture : Generator A)
    (tests : list (A -> Py.M E W unit))
  : W -> list (Outcome unit) * W * list (Event E) := fun w =>
  match fixture w with
  | (Returns (resource, teardown), w1, t1) =>
      match run_tests resource tests w1 with
      | (rs, w2, t2) =>
          match teardown w2 with
          | (_, w3, t3) => (rs, w3, t1 ++ t2 ++ t3)
          end
      end
  | (Raises e, w1, t1) => (map (fun _ => Raises e) tests, w1, t1)
  end.
End Protocol.

Arguments yield {E W A} a rest.
Arguments run_test {E W A B} fixture test.
Arguments run_tests {E W A} resource tests.
Arguments run_module {E W A} fixture tests.

End Pytest.

Module Catalog.

(** Objects of [your_module], by identity. *)
Definition APIClient : Type := nat.
Definition Database : Type := nat.

(** A [User]; [token] is the attribute [authenticated_user] adds. *)
Record User : Type := {
  id : Z;
  username : string;
  email : string;
  token : option string
}.

Record HttpResponse : Type := { status_code : Z }.

Inductive Call : Type -> Type :=
| APIClient_new (base_url : string) : Call APIClient
| client_login (client : APIClient) (username password : string)
  : Call string
| client_get (client : APIClient) (path token : string) : Call HttpResponse
| client_close (client : APIClient) : Call unit
| Database_new (engine : string) : Call Database
| engine_connect (db : Database) : Call bool
| clear_cache : Call unit
| reset_counters : Call unit
| cleanup_temp_files : Call unit.

(** The engines of the [Database] objects a log shows being built. *)
Definition engines_created (t : list (Event Call)) : list string :=
  flat_map (fun e => match e with
                     | Called (Database_new engine) => [engine]
                     | _ => []
                     end) t.

(** Creation and closing of a client. *)
Definition is_client_lifecycle (e : Event Call) : bool :=
  match e with
  | Called (APIClient_new _) => true
  | Called (client_close _) => true
  | _ => false
  end.

(** The [params] of [database_engine]. *)
Definition database_engine_params : list string :=
  ["sqlite"; "postgres"; "mysql"].

Section Catalog.
Variable W : Type.
Variable perform : forall X, Call X -> W -> Answer X * W.

Abbreviation M := (Py.M Call W).
Abbreviation call := (Py.call perform).

Definition sample_user : M User :=
  ret {| id := 1; username := "testuser"; email := "test@example.com";
         token := None |}.

Definition database_engine (param : string) : M Database :=
  call (Database_new param).

Definition api_client : Pytest.Generator Call W APIClient :=
  let* client := call (APIClient_new "http://test.example.com") in
  Pytest.yield client (call (client_close client)).

Definition test_config : M (gmap string pyval) :=
  ret (<["api_key" := VStr "test_key"]>
         (<["timeout" := VInt 30]> (<["retry_count" := VInt 3]> ∅))).

Definition reset_state : Pytest.Generator Call W unit :=
  let* _ := call clear_cache in
  let* _ := call reset_counters in
  Pytest.yield tt (call cleanup_temp_files).

Definition authenticated_user (sample_user : User) (api_client : APIClient)
  : M User :=
  let* token :=
    call (client_login api_client (username sample_user) "password123") in
  ret {| id := id sample_user; username := username sample_user;
         email := email sample_user; token := Some token |}.

(** A failing [assert]. *)
Definition assertion (b : bool) : M unit :=
  if b then ret tt else raise (ExternalError "AssertionError").

(** [user.token], an [AttributeError] while the attribute is not set. *)
Definition token_attribute (user : User) : M string :=
  match token user with
  | Some t => ret t
  | None => raise (ExternalError "AttributeError")
  end.

Definition test_multiple_engines (database_engine : Database) : M unit :=
  let* connected := call (engine_connect database_engine) in
  assertion connected.

Definition test_api_call (authenticated_user : User)
    (api_client : APIClient) : M unit :=
  let* token := token_attribute authenticated_user in
  let* response := call (client_get api_client "/profile" token) in
  assertion (Z.eqb (status_code response) 200).

(** [test_api_call] with the fixtures it requests resolved:
    [sample_user], then [authenticated_user] from it and from the client
    of the module, which is also the client the test receives. *)
Definition run_test_api_call (api_client : APIClient) : M unit :=
  let* user := sample_user in
  let* user := authenticated_user user api_client in
  test_api_call user api_client.

(** [test_multiple_engines] on every parameter of [database_engine], in
    the order of [params]. *)
Definition run_test_multiple_engines
  : W -> list (Outcome unit) * W * list (Event Call) :=
  Pytest.run_tests tt
    (map (fun param (_ : unit) =>
            let* db := database_engine param in
            test_multiple_engines db)
       database_engine_params).
End Catalog.

End Catalog.

(** An HTTP client and a cache for the catalogue: logins hand out the
    username as token, [/profile] answers 200 to the token of a user who
    logged in, and the world counts the open clients and the temporary
    files. *)
Module TestClient.
Import Catalog.

Record World : Type := {
  next_object : nat;
  open_clients : list nat;
  sessions : list string;
  temp_files : nat
}.

Definition perform (X : Type) (c : Call X) (w : World) : Answer X * World :=
  match c in Call X return Answer X * World with
  | APIClient_new _ =>
      (Ans (next_object w),
       {| next_object := S (next_object w);
          open_clients := next_object w :: open_clients w;
          sessions := sessions w; temp_files := temp_files w |})
  | client_login _ username _ =>
      (Ans ("token-" ++ username)%string,
       {| next_object := next_object w; open_clients := open_clients w;
          sessions := ("token-" ++ username)%string :: sessions w;
          temp_files := temp_files w |})
  | client_get _ _ token =>
      (Ans {| status_code :=
                if existsb (String.eqb token) (sessions w) then 200 else 401 |},
       {| next_object := next_object w; open_clients := open_clients w;
          sessions := sessions w; temp_files := S (temp_files w) |})
  | client_close client =>
      (Ans tt,
       {| next_object := next_object w;
          open_clients :=
            List.filter (fun c => negb (Nat.eqb c client)) (open_clients w);
          sessions := sessions w; temp_files := temp_files w |})
  | Database_new engine =>
      if String.eqb engine "mysql"
      then (Failure "ImportError", w)
      else (Ans (next_object w),
            {| next_object := S (next_object w);
               open_clients := open_clients w;
               sessions := sessions w; temp_files := temp_files w |})
  | engine_connect _ => (Ans true, w)
  | clear_cache => (Ans tt, w)
  | reset_counters => (Ans tt, w)
  | cleanup_temp_files =>
      (Ans tt,
       {| next_object := next_object w; open_clients := open_clients w;
          sessions := sessions w; temp_files := O |})
  end.

Definition initial : World :=
  {| next_object := 3; open_clients := []; sessions := [];
     temp_files := O |}.
End TestClient.

(* ===================================================================== *)
(** * Observations on the endpoints *)
(* ===================================================================== *)

Module ApiMore.
Import Api.

(** [sub in s] *)
Fixpoint contains (s sub : string) : bool :=
  Str.startswith s sub
  || match s with
     | EmptyString => false
     | String _ s' => contains s' sub
     end.

(** A header with [n] copies of ["Bearer "] in front of [rest]. *)
Fixpoint bearer_times (n : nat) (rest : string) : string :=
  match n with
  | O => rest
  | S k => "Bearer " ++ bearer_times k rest
  end.

(** ** The [UserUpdate] schema *)

(** A field of a body submitted for [UserUpdate]: absent ([None]), [null]
    ([Some None]) or a string. *)
Record UserUpdateInput : Type := {
  upd_email : option (option string);
  upd_full_name : option (option string);
  upd_password : option (option string)
}.

(** An [Optional] field with default [None]: an absent field stays unset,
    [null] is accepted as it is, a string goes through the check. *)
Definition optional (check : string -> FieldError + string)
    (v : option (option string)) : FieldError + option (option string) :=
  match v with
  | None => inr None
  | Some None => inr (Some None)
  | Some (Some s) => and_then (check s) (fun s' => inr (Some (Some s')))
  end.

Section Validation.
Variable validate_email : string -> option string.

Definition check_email (s : string) : FieldError + string :=
  match validate_email s with
  | Some e => inr e
  | None => inl (NotAnEmail "email")
  end.

Definition UserUpdate_validate (input : UserUpdateInput)
  : list FieldError + UserUpdate :=
  let email := optional check_email (upd_email input) in
  let full_name :=
    optional (check_length "full_name" None (Some 100))
      (upd_full_name input) in
  let password :=
    optional (check_length "password" (Some 8) None) (upd_password input) in
  match email, full_name, password with
  | inr e, inr f, inr p =>
      inr {| uu_email := e; uu_full_name := f; uu_password := p |}
  | _, _, _ =>
      inl (errors_of email ++ errors_of full_name ++ errors_of password)
  end.
End Validation.

(** The value [dict(exclude_unset=True)] holds for a field that is set. *)
Definition field_value (v : option string) : pyval :=
  match v with
  | None => VNone
  | Some s => VStr s
  end.

(** ** What a log shows *)

Inductive Method : Type := GET | POST | PATCH | DELETE.

Definition method_of (request : Request) : Method :=
  match request with
  | POST_users _ _ => POST
  | GET_users _ _ _ _ | GET_user _ _ | GET_health => GET
  | PATCH_user _ _ _ => PATCH
  | DELETE_user _ _ => DELETE
  end.

(** The method whose route performs a given write of the store. *)
Definition write_method (e : Event Call) : option Method :=
  match e with
  | Called (db_create_user _ _ _ _ _ _ _) => Some POST
  | Called (db_update_user _ _) => Some PATCH
  | Called (db_delete_user _) => Some DELETE
  | _ => None
  end.

Definition is_db_call (e : Event Call) : bool :=
  match e with
  | Called (db_find_user_by_username_or_email _ _) => true
  | Called (db_create_user _ _ _ _ _ _ _) => true
  | Called (db_list_users _ _ _) => true
  | Called (db_get_user _) => true
  | Called (db_update_user _ _) => true
  | Called (db_delete_user _) => true
  | _ => false
  end.

(** The dictionaries handed to [db.update_user]. *)
Definition update_payloads (t : list (Event Call)) : list dict :=
  flat_map (fun e => match e with
                     | Called (db_update_user _ d) => [d]
                     | _ => []
                     end) t.

(** The ids handed to [db.delete_user]. *)
Definition deleted_ids (t : list (Event Call)) : list string :=
  flat_map (fun e => match e with
                     | Called (db_delete_user user_id) => [user_id]
                     | _ => []
                     end) t.

(** The values handed to [hash_password]. *)
Definition hashed_passwords (t : list (Event Call)) : list pyval :=
  flat_map (fun e => match e with
                     | Called (hash_password p) => [p]
                     | _ => []
                     end) t.

(** The status codes a route can answer with. *)
Definition statuses_of (request : Request) : list Z :=
  match request with
  | POST_users _ _ => [201; 401; 409; 500]
  | GET_users _ _ _ _ => [200; 401; 500]
  | GET_user _ _ => [200; 401; 404; 500]
  | PATCH_user _ _ _ => [200; 401; 403; 404; 500]
  | DELETE_user _ _ => [204; 401; 403; 404; 500]
  | GET_health => [200; 500]
  end.

(** ** Proof support *)

(** Run every route on every answer of the collaborators. *)
Ltac run_all_routes perform request :=
  destruct request; simpl;
  unfold get_current_user, create_user, list_users, get_user,
    update_user, require_admin, delete_user, health_check;
  execute perform.

(** Go through the events of a log that has been computed. *)
Ltac each_event :=
  repeat match goal with
         | H : _ \/ _ |- _ => destruct H as [<-|H]
         | H : False |- _ => destruct H
         | H : In _ _ |- _ => simpl in H
         end.

(** Turn the tests on the header into propositions as well. *)
Ltac decode_tests :=
  repeat match goal with
         | H : _ || _ = false |- _ => apply orb_false_iff in H as [? ?]
         | H : _ || _ = true |- _ => apply orb_true_iff in H as [?|?]
         end;
  decode.

End ApiMore.

(* ===================================================================== *)
(** * Properties of the fixtures *)
(* ===================================================================== *)

Module FixturesSpec.
Import Fixtures.

Section Spec.
Variable W : Type.
Variable perform : forall X, Call X -> W -> Answer X * W.

Lemma database_connection_setup w db w1 w2 u :
  perform _ (Database_connect "test_db") w = (Ans db, w1) ->
  perform _ (create_tables db) w1 = (Ans u, w2) ->
  database_connection W perform w =
    (Returns (db, teardown_of W perform db), w2,
     [Called (Database_connect "test_db"); Called (create_tables db)]).
Proof.
  intros Hconnect Hcreate.
  unfold database_connection, yield, bind, call, ret.
  rewrite Hconnect, Hcreate. reflexivity.
Qed.

Lemma teardown_log db w w' u :
  perform _ (drop_tables db) w = (Ans u, w') ->
  log (teardown_of W perform db w) =
    [Called (drop_tables db); Called (close db)].
Proof.
  intros Hdrop. unfold teardown_of, bind, call.
  rewrite Hdrop.
  destruct (perform unit (close db) w') as [[x|what] w'']; reflexivity.
Qed.

(** A set-up that fails runs neither the test nor the teardown. *)
Lemma database_connection_setup_fails B (test : Database -> Py.M Call W B) w what w1 :
  perform _ (Database_connect "test_db") w = (Failure what, w1) ->
  run_test W (database_connection W perform) test w =
    (Raises (ExternalError what), w1,
     [Called (Database_connect "test_db")]).
Proof.
  intros Hconnect.
  unfold run_test, database_connection, bind, call.
  rewrite Hconnect. reflexivity.
Qed.

(** C9.  When [Database.connect], [create_tables] and [drop_tables]
    return, a test that requests [database_connection] sees the calls
    in one order: [connect("test_db")], then [create_tables] on the
    object it returned, then the calls of the test body, then
    [drop_tables] and [close] on that same object.  The generator has
    reached its [yield] after exactly the first two calls, the value it
    yields is the object returned by [connect], and the test body is the
    code that runs on it, in the world [create_tables] left. *)
Theorem database_connection_order B (test : Database -> Py.M Call W B)
    w db w1 w2 w4 u u' :
  perform _ (Database_connect "test_db") w = (Ans db, w1) ->
  perform _ (create_tables db) w1 = (Ans u, w2) ->
  perform _ (drop_tables db) (world (test db w2)) = (Ans u', w4) ->
  (exists teardown,
      database_connection W perform w =
        (Returns (db, teardown), w2,
         [Called (Database_connect "test_db");
          Called (create_tables db)]))
  /\ log (run_test W (database_connection W perform) test w) =
       [Called (Database_connect "test_db"); Called (create_tables db)]
       ++ log (test db w2)
       ++ [Called (drop_tables db); Called (close db)].
Proof.
  intros Hconnect Hcreate Hdrop.
  pose proof (database_connection_setup _ _ _ _ _ Hconnect Hcreate) as Hsetup.
  split; [eauto|].
  pose proof (teardown_log _ _ _ _ Hdrop) as Hlog.
  unfold run_test, bind at 1. rewrite Hsetup.
  destruct (test db w2) as [[r w3] t] eqn:Htest.
  unfold world, log in *; simpl in *.
  destruct (teardown_of W perform db w3) as [[[x|e] w5] t5]; simpl in *;
    subst t5; reflexivity.
Qed.
End Spec.

(** The order, observed on the reference database with the test of the
    template. *)
Lemma database_connection_order_witness :
  log (run_test TestDb.World
         (database_connection TestDb.World TestDb.perform)
         (test_create_user TestDb.World TestDb.perform) TestDb.initial) =
  [Called (Database_connect "test_db"); Called (create_tables 7%nat);
   Called (User_create 7%nat "newuser");
   Called (drop_tables 7%nat); Called (close 7%nat)].
Proof.
  exact (proj2 (database_connection_order TestDb.World TestDb.perform unit
           (test_create_user TestDb.World TestDb.perform)
           TestDb.initial 7%nat _ _ _ tt tt
           eq_refl eq_refl eq_refl)).
Defined.

End FixturesSpec.

(* ===================================================================== *)
(** * Properties of the endpoints *)
(* ===================================================================== *)

Module ApiSpec.
Import Api.

(** *** The string operations on sample inputs *)

Example replace_removes_every_occurrence :
  Str.replace "Bearer abc Bearer def" "Bearer " EmptyString = "abc def".
Proof. reflexivity. Qed.

Example replace_scans_once :
  Str.replace "BeBearer arer x" "Bearer " EmptyString = "Bearer x".
Proof. reflexivity. Qed.

Example replace_empty_pattern :
  Str.replace "abc" EmptyString "-" = "-a-b-c-".
Proof. reflexivity. Qed.

Example startswith_needs_the_space :
  Str.startswith "Bearer" "Bearer " = false
  /\ Str.startswith "bearer x" "Bearer " = false
  /\ Str.startswith "Bearer x" "Bearer " = true.
Proof. repeat split; reflexivity. Qed.

Example isalnum_samples :
  Str.isalnum "Alice42" = true
  /\ Str.isalnum "alice_42" = false
  /\ Str.isalnum "al ice" = false
  /\ Str.isalnum EmptyString = false.
Proof. repeat split; reflexivity. Qed.

Example lower_samples :
  Str.lower "Alice42" = "alice42" /\ Str.lower "ABC-xyz" = "abc-xyz".
Proof. split; reflexivity. Qed.

Section Spec.
Variable W : Type.
Variable perform : forall X, Call X -> W -> Answer X * W.

(** *** Authentication *)

Lemma get_current_user_missing w :
  get_current_user W perform None w =
    (Raises (HTTPException 401 "Invalid or missing token"
               [("WWW-Authenticate", "Bearer")]), w, []).
Proof. reflexivity. Qed.

Lemma get_current_user_malformed s w :
  Str.startswith s "Bearer " = false ->
  get_current_user W perform (Some s) w =
    (Raises (HTTPException 401 "Invalid or missing token"
               [("WWW-Authenticate", "Bearer")]), w, []).
Proof.
  intros Hprefix. unfold get_current_user. rewrite Hprefix.
  rewrite orb_true_r. reflexivity.
Qed.

Lemma get_current_user_invalid s w what w' :
  Str.startswith s "Bearer " = true ->
  perform _ (validate_jwt_token (token_of s)) w =
    (Failure what, w') ->
  get_current_user W perform (Some s) w =
    (Raises (HTTPException 401 "Invalid token"
               [("WWW-Authenticate", "Bearer")]), w',
     [Called (validate_jwt_token (token_of s))]).
Proof.
  intros Hprefix Hvalidate. unfold get_current_user. rewrite Hprefix.
  replace (truthy (VStr s)) with true
    by (destruct s; [discriminate | reflexivity]).
  unfold_monad; simpl. rewrite Hvalidate. reflexivity.
Qed.

Lemma get_current_user_valid s w user w' :
  Str.startswith s "Bearer " = true ->
  perform _ (validate_jwt_token (token_of s)) w =
    (Ans user, w') ->
  get_current_user W perform (Some s) w =
    (Returns user, w',
     [Called (validate_jwt_token (token_of s))]).
Proof.
  intros Hprefix Hvalidate. unfold get_current_user. rewrite Hprefix.
  replace (truthy (VStr s)) with true
    by (destruct s; [discriminate | reflexivity]).
  unfold_monad; simpl. rewrite Hvalidate. reflexivity.
Qed.

(** A route of [/api/users] whose dependency raised answers with the
    response of that exception; the log is the dependency's. *)
Lemma app_dependency_raises request w e w' t :
  is_users_route request = true ->
  get_current_user W perform (authorization_of request) w =
    (Raises e, w', t) ->
  app W perform request w = (handle_exception request e, w', t).
Proof.
  intros Hroute Hdep.
  destruct request; try discriminate; simpl in *;
    unfold serve, bind; rewrite Hdep; reflexivity.
Qed.

(** No handler of the template raises 401 itself. *)
Lemma app_authenticated_not_401 request w user w' t :
  is_users_route request = true ->
  get_current_user W perform (authorization_of request) w =
    (Returns user, w', t) ->
  status_code (response W (app W perform request w)) <> 401.
Proof.
  intros Hroute Hdep.
  destruct request; try discriminate; simpl in *;
    unfold serve, response, bind at 1; rewrite Hdep;
    unfold create_user, list_users, get_user, update_user, require_admin,
      delete_user;
    execute perform; autounfold with status; discriminate.
Qed.

(** The token that is validated is the header with every occurrence of
    ["Bearer "] removed; for a header of the usual form this is what
    follows the prefix. *)
Lemma bearer_token_strips_prefix rest :
  Str.replace ("Bearer " ++ rest) "Bearer " EmptyString =
  Str.replace rest "Bearer " EmptyString.
Proof. reflexivity. Qed.

(** C1.  On every route under [/api/users]: when the [Authorization]
    header is missing, does not start with ["Bearer "], or carries a
    token that [validate_jwt_token] rejects, [get_current_user] raises
    401 with the header [WWW-Authenticate: Bearer], that is the
    response of the route, and the route made no call besides the
    token validation (the handler body did not run).  When
    [validate_jwt_token] accepts the token, [get_current_user] returns
    the user it answered and the response of the route is not a 401. *)
Theorem get_current_user_guards_users_routes request w :
  is_users_route request = true ->
  ((authorization_of request = None
    \/ (exists s, authorization_of request = Some s
                  /\ Str.startswith s "Bearer " = false)
    \/ (exists s what w',
           authorization_of request = Some s
           /\ Str.startswith s "Bearer " = true
           /\ perform _ (validate_jwt_token (token_of s))
                 w = (Failure what, w'))) ->
   exists detail w' t,
     get_current_user W perform (authorization_of request) w =
       (Raises (HTTPException 401 detail [("WWW-Authenticate", "Bearer")]),
        w', t)
     /\ app W perform request w =
          ({| status_code := 401;
              headers := [("WWW-Authenticate", "Bearer")];
              content := JSON_object (<["detail" := VStr detail]> ∅) |},
           w', t)
     /\ forallb is_validate_call t = true)
  /\ (forall s user w',
        authorization_of request = Some s ->
        Str.startswith s "Bearer " = true ->
        perform _ (validate_jwt_token (token_of s)) w =
          (Ans user, w') ->
        get_current_user W perform (authorization_of request) w =
          (Returns user, w',
           [Called (validate_jwt_token (token_of s))])
        /\ status_code (response W (app W perform request w)) <> 401).
Proof.
  intros Hroute. split.
  - intros Hrejected.
    assert (exists detail w' t,
               get_current_user W perform (authorization_of request) w =
                 (Raises (HTTPException 401 detail
                            [("WWW-Authenticate", "Bearer")]), w', t)
               /\ forallb is_validate_call t = true)
      as (detail & w' & t & Hdep & Hlog).
    { destruct Hrejected as [Hnone | [(s & Hsome & Hprefix)
                                    | (s & what & w' & Hsome & Hprefix & Hval)]].
      - rewrite Hnone. eexists _, _, _. split;
          [apply get_current_user_missing | reflexivity].
      - rewrite Hsome. eexists _, _, _. split;
          [apply get_current_user_malformed; assumption | reflexivity].
      - rewrite Hsome. eexists _, _, _. split;
          [eapply get_current_user_invalid; eassumption | reflexivity]. }
    exists detail, w', t. split; [assumption|]. split; [|assumption].
    rewrite (app_dependency_raises _ _ _ _ _ Hroute Hdep). reflexivity.
  - intros s user w' Hsome Hprefix Hval.
    assert (get_current_user W perform (authorization_of request) w =
              (Returns user, w',
               [Called (validate_jwt_token (token_of s))]))
      as Hdep
      by (rewrite Hsome; apply get_current_user_valid; assumption).
    split; [assumption|].
    eapply app_authenticated_not_401; eassumption.
Qed.

Lemma app_authenticated request w current_user w' t :
  is_users_route request = true ->
  get_current_user W perform (authorization_of request) w =
    (Returns current_user, w', t) ->
  app W perform request w =
    following W t (authenticated W perform request current_user w').
Proof.
  intros Hroute Hdep.
  destruct request; try discriminate; simpl in *;
    unfold serve, following, bind at 1; rewrite Hdep;
    match goal with
    | |- context [match ?m w' with _ => _ end] =>
        destruct (m w') as [[[?|?] ?] ?]; reflexivity
    end.
Qed.

(** *** Authorisation *)

(** C2.  For an authenticated request to a route under [/api/users],
    the response is a 403 exactly when the requester lacks the
    privilege of the route: on [DELETE] when the requester is not an
    admin, on [PATCH] when the requester's id differs from the
    [user_id] of the path and the requester is not an admin, and on no
    other route.  A 403 is answered before any call to the store: the
    world and the log are as the authentication left them. *)
Theorem forbidden_exactly_without_privilege request w current_user w' t :
  is_users_route request = true ->
  get_current_user W perform (authorization_of request) w =
    (Returns current_user, w', t) ->
  (status_code (response W (app W perform request w)) = 403 <->
   match request with
   | DELETE_user _ _ =>
       truthy (dict_get current_user "is_admin") = false
   | PATCH_user _ user_id _ =>
       (exists requester_id,
           current_user !! "id" = Some requester_id
           /\ VStr user_id <> requester_id)
       /\ truthy (dict_get current_user "is_admin") = false
   | _ => False
   end)
  /\ (status_code (response W (app W perform request w)) = 403 ->
      world (app W perform request w) = w'
      /\ log (app W perform request w) = t).
Proof.
  intros Hroute Hdep.
  rewrite (app_authenticated _ _ _ _ _ Hroute Hdep).
  unfold following, world, log, response; simpl.
  destruct request; try discriminate; simpl;
    unfold create_user, list_users, get_user, update_user, require_admin,
      delete_user;
    execute perform; autounfold with status.
  all: try rewrite app_nil_r.
  all: decode.
  all: split;
    [split;
     [intros Hstatus; try discriminate Hstatus; eauto
     |intros Hlacks; try tauto;
      try match type of Hlacks with
          | _ /\ _ =>
              destruct Hlacks as [(requester_id & Hid & Hne) Hadmin];
              simplify_eq
          end;
      try congruence; try contradiction]
    |intros Hstatus; try discriminate Hstatus; auto].
Qed.

(** *** Lookup of the addressed user *)

Lemma get_current_user_log authorization w :
  forallb is_validate_call
    (log (get_current_user W perform authorization w)) = true.
Proof.
  unfold get_current_user.
  destruct authorization as [s|]; [|reflexivity].
  execute perform; reflexivity.
Qed.

Lemma validate_calls_are_not_writes t :
  forallb is_validate_call t = true ->
  List.filter is_store_write t = [].
Proof.
  induction t as [|e t IH]; [reflexivity|]. simpl.
  intros Hall. apply andb_true_iff in Hall as [He Ht].
  rewrite (IH Ht).
  destruct e as [X c]. destruct c; try discriminate; reflexivity.
Qed.

(** C3.  For an authenticated and authorised [GET], [PATCH] or
    [DELETE] of [/api/users/{user_id}], the response is a 404 exactly
    when [db.get_user(user_id)] returns no user; in that case the only
    call after the authentication is that lookup, so the log holds no
    [db.update_user], [db.delete_user] or [db.create_user]. *)
Theorem not_found_exactly_when_absent request user_id w current_user w' t :
  user_id_of request = Some user_id ->
  get_current_user W perform (authorization_of request) w =
    (Returns current_user, w', t) ->
  match request with
  | PATCH_user _ _ _ =>
      exists requester_id,
        current_user !! "id" = Some requester_id
        /\ (VStr user_id = requester_id
            \/ truthy (dict_get current_user "is_admin") = true)
  | DELETE_user _ _ => truthy (dict_get current_user "is_admin") = true
  | _ => True
  end ->
  (status_code (response W (app W perform request w)) = 404 <->
   exists w'', perform _ (db_get_user user_id) w' = (Ans None, w''))
  /\ (status_code (response W (app W perform request w)) = 404 ->
      log (app W perform request w) = t ++ [Called (db_get_user user_id)]
      /\ List.filter is_store_write
           (log (app W perform request w)) = []).
Proof.
  intros Hpath Hdep Hauthorized.
  assert (List.filter is_store_write t = []) as Hclean.
  { apply validate_calls_are_not_writes.
    pose proof (get_current_user_log (authorization_of request) w) as Hlog.
    rewrite Hdep in Hlog. exact Hlog. }
  assert (is_users_route request = true) as Hroute
      by (destruct request; try discriminate; reflexivity).
  rewrite (app_authenticated _ _ _ _ _ Hroute Hdep).
  unfold following, world, log, response; simpl.
  destruct request; try discriminate; simpl in Hpath; simplify_eq;
    simpl;
    unfold create_user, list_users, get_user, update_user, require_admin,
      delete_user;
    execute perform; autounfold with status.
  all: decode.
  all: try (destruct Hauthorized as (requester_id & Hid & [Hself|Hadmin]);
            simplify_eq; congruence).
  all: split;
    [split;
     [intros Hstatus; try discriminate Hstatus; eauto
     |intros [w'' Hnone]; congruence]
    |intros Hstatus;
     first [discriminate Hstatus
           |split; [reflexivity|];
            rewrite List.filter_app, Hclean; reflexivity]].
Qed.

(** *** Creation *)

(** C8.  When [db.find_user_by_username_or_email] reports an existing
    user, [create_user] raises 409 having made that one call only:
    neither [hash_password] nor [db.create_user] is invoked and the
    world is the one the lookup left.  The route answers 409 with the
    calls of the authentication followed by the lookup. *)
Theorem create_user_conflict_is_atomic
    authorization user_data w current_user w' t existing w1 :
  get_current_user W perform authorization w =
    (Returns current_user, w', t) ->
  perform _ (db_find_user_by_username_or_email
               (uc_username user_data) (uc_email user_data)) w' =
    (Ans (Some existing), w1) ->
  create_user W perform user_data current_user w' =
    (Raises (HTTPException 409 "Username or email already exists" []),
     w1,
     [Called (db_find_user_by_username_or_email
                (uc_username user_data) (uc_email user_data))])
  /\ app W perform (POST_users authorization user_data) w =
       ({| status_code := 409; headers := [];
           content :=
             JSON_object
               (<["detail" := VStr "Username or email already exists"]>
                  ∅) |},
        w1,
        t ++ [Called (db_find_user_by_username_or_email
                        (uc_username user_data) (uc_email user_data))]).
Proof.
  intros Hdep Hfind.
  assert (create_user W perform user_data current_user w' =
            (Raises (HTTPException 409
                       "Username or email already exists" []), w1,
             [Called (db_find_user_by_username_or_email
                        (uc_username user_data) (uc_email user_data))]))
    as Hconflict.
  { unfold create_user. unfold_monad. rewrite Hfind. reflexivity. }
  split; [exact Hconflict|].
  rewrite (app_authenticated (POST_users authorization user_data)
             _ _ _ _ eq_refl Hdep).
  unfold authenticated, serve, following. rewrite Hconflict. reflexivity.
Qed.

(** C4, amended.  For an authenticated [POST /api/users], the
    response is a 409 exactly when [db.find_user_by_username_or_email]
    reports an existing user.  Otherwise, the collaborators returning,
    the handler hashes the password, draws a UUID, reads the clock
    twice and calls [db.create_user] with that UUID, [created_at] from
    the first reading and [updated_at] from the second; the response is
    a 201 carrying the user [db.create_user] returned. *)
Theorem create_user_conflict_or_created
    authorization user_data w current_user w' t :
  get_current_user W perform authorization w =
    (Returns current_user, w', t) ->
  (status_code
     (response W (app W perform (POST_users authorization user_data) w))
   = 409 <->
   exists existing w1,
     perform _ (db_find_user_by_username_or_email
                  (uc_username user_data) (uc_email user_data)) w' =
       (Ans (Some existing), w1))
  /\ (forall w1 password_hash w2 id w3 created_at w4 updated_at w5
             new_user w6,
        perform _ (db_find_user_by_username_or_email
                     (uc_username user_data) (uc_email user_data)) w' =
          (Ans None, w1) ->
        perform _ (hash_password (VStr (uc_password user_data))) w1 =
          (Ans password_hash, w2) ->
        perform _ uuid4 w2 = (Ans id, w3) ->
        perform _ utcnow w3 = (Ans created_at, w4) ->
        perform _ utcnow w4 = (Ans updated_at, w5) ->
        perform _ (db_create_user id (uc_username user_data)
                     (uc_email user_data) password_hash
                     (uc_full_name user_data) created_at updated_at) w5 =
          (Ans new_user, w6) ->
        app W perform (POST_users authorization user_data) w =
          ({| status_code := 201; headers := [];
              content := JSON_user (to_response new_user) |},
           w6,
           t ++ [Called (db_find_user_by_username_or_email
                           (uc_username user_data) (uc_email user_data));
                 Called (hash_password (VStr (uc_password user_data)));
                 Called uuid4; Called utcnow; Called utcnow;
                 Called (db_create_user id (uc_username user_data)
                           (uc_email user_data) password_hash
                           (uc_full_name user_data)
                           created_at updated_at)])).
Proof.
  intros Hdep.
  rewrite (app_authenticated (POST_users authorization user_data)
             _ _ _ _ eq_refl Hdep).
  unfold authenticated, following, response, create_user. split.
  - execute perform; autounfold with status;
      (split; [intros Hstatus; try discriminate Hstatus; eauto
              |intros (existing & w1' & Hsome); congruence]).
  - intros * Hfind Hhash Huuid Hcreated Hupdated Hrow.
    unfold_monad; simpl. rewrite Hfind; simpl. rewrite Hhash; simpl.
    rewrite Huuid; simpl. rewrite Hcreated; simpl.
    rewrite Hupdated; simpl. rewrite Hrow; simpl. reflexivity.
Qed.

(** *** Pagination *)

(** [(total + limit - 1) // limit] is the ceiling of [total / limit]. *)
Lemma ceiling_division total limit :
  1 <= limit ->
  total <= (total + limit - 1) / limit * limit
  /\ ((total + limit - 1) / limit - 1) * limit < total.
Proof.
  intros Hlimit.
  pose proof (Z.div_mod (total + limit - 1) limit ltac:(lia)) as Hdiv.
  pose proof (Z.mod_pos_bound (total + limit - 1) limit ltac:(lia)) as Hmod.
  nia.
Qed.

Lemma clamp_limit limit :
  (if (100 <? limit)%Z then 100 else limit) = Z.min limit 100.
Proof. destruct (Z.ltb_spec 100 limit); lia. Qed.

(** C7.  For an authenticated [GET /api/users] with [page >= 1] and
    [limit >= 1], the store is asked once, for [min(limit, 100)] users
    from offset [(page - 1) * min(limit, 100)]; the pagination object
    has [per_page = min(limit, 100)] and [total_pages] the ceiling of
    [total / min(limit, 100)], that is, the least number of pages of
    that size that hold [total] users. *)
Theorem list_users_pagination
    authorization page limit search w current_user w' t users total w1 :
  1 <= page ->
  1 <= limit ->
  get_current_user W perform authorization w =
    (Returns current_user, w', t) ->
  perform _ (db_list_users ((page - 1) * Z.min limit 100)
               (Z.min limit 100) search) w' = (Ans (users, total), w1) ->
  exists total_pages,
    let pages :=
      <["page" := VInt page]>
        (<["per_page" := VInt (Z.min limit 100)]>
           (<["total" := VInt total]>
              (<["total_pages" := VInt total_pages]> ∅))) in
    list_users W perform page limit search current_user w' =
      (Returns (users, pages), w1,
       [Called (db_list_users ((page - 1) * Z.min limit 100)
                  (Z.min limit 100) search)])
    /\ app W perform (GET_users authorization page limit search) w =
         ({| status_code := 200; headers := [];
             content := JSON_user_list
                          {| data := map to_response users;
                             pagination := pages |} |},
          w1,
          t ++ [Called (db_list_users ((page - 1) * Z.min limit 100)
                          (Z.min limit 100) search)])
    /\ pages !! "per_page" = Some (VInt (Z.min limit 100))
    /\ pages !! "total_pages" = Some (VInt total_pages)
    /\ total <= total_pages * Z.min limit 100
    /\ (total_pages - 1) * Z.min limit 100 < total.
Proof.
  intros Hpage Hlimit Hdep Hlist.
  exists ((total + Z.min limit 100 - 1) / Z.min limit 100).
  assert (1 <= Z.min limit 100) as Hper_page by lia.
  assert (Z.eqb (Z.min limit 100) 0 = false) as Hnonzero
      by (apply Z.eqb_neq; lia).
  assert (list_users W perform page limit search current_user w' =
            (Returns
               (users,
                <["page" := VInt page]>
                  (<["per_page" := VInt (Z.min limit 100)]>
                     (<["total" := VInt total]>
                        (<["total_pages" :=
                             VInt ((total + Z.min limit 100 - 1)
                                   / Z.min limit 100)]> ∅)))), w1,
             [Called (db_list_users ((page - 1) * Z.min limit 100)
                        (Z.min limit 100) search)])) as Hhandler.
  { unfold list_users. rewrite clamp_limit.
    unfold_monad. rewrite Hlist. simpl. rewrite Hnonzero. reflexivity. }
  cbv zeta.
  split; [exact Hhandler|]. split.
  { rewrite (app_authenticated (GET_users authorization page limit search)
               _ _ _ _ eq_refl Hdep).
    unfold authenticated, serve, following. rewrite Hhandler.
    reflexivity. }
  split; [reflexivity|]. split; [reflexivity|].
  apply ceiling_division; assumption.
Qed.

(** *** Unhandled exceptions *)

(** Every 500 the application answers is the generic one: no handler
    raises an [HTTPException] with that status. *)
Lemma app_500_is_generic request w :
  status_code (response W (app W perform request w)) = 500 ->
  response W (app W perform request w) =
    {| status_code := 500; headers := [];
       content :=
         JSON_object
           (<["error" := VStr "Internal server error"]>
              (<["code" := VStr "INTERNAL_ERROR"]> ∅)) |}.
Proof.
  destruct request; simpl;
    unfold get_current_user, create_user, list_users, get_user,
      update_user, require_admin, delete_user, health_check;
    execute perform; autounfold with status;
    intros Hstatus; try discriminate Hstatus; reflexivity.
Qed.

End Spec.

(** *** Validation of [UserCreate] *)

Lemma char_lower_idempotent c :
  Str.char_lower (Str.char_lower c) = Str.char_lower c.
Proof. destruct c as [[] [] [] [] [] [] [] []]; reflexivity. Qed.

Lemma char_lower_isalnum c :
  Str.char_isalnum (Str.char_lower c) = Str.char_isalnum c.
Proof. destruct c as [[] [] [] [] [] [] [] []]; reflexivity. Qed.

Lemma lower_idempotent s : Str.lower (Str.lower s) = Str.lower s.
Proof.
  unfold Str.lower. induction s as [|c s IH]; simpl; [reflexivity|].
  rewrite char_lower_idempotent, IH. reflexivity.
Qed.

Lemma lower_len s : Str.len (Str.lower s) = Str.len s.
Proof.
  unfold Str.len, Str.lower. f_equal.
  induction s as [|c s IH]; simpl; [reflexivity|]. rewrite IH. reflexivity.
Qed.

Lemma lower_all_alnum s :
  Str.all_chars Str.char_isalnum (Str.lower s) =
  Str.all_chars Str.char_isalnum s.
Proof.
  unfold Str.lower. induction s as [|c s IH]; simpl; [reflexivity|].
  rewrite char_lower_isalnum, IH. reflexivity.
Qed.

Lemma lower_isalnum s : Str.isalnum (Str.lower s) = Str.isalnum s.
Proof.
  destruct s as [|c s]; [reflexivity|].
  change (Str.isalnum (String c s))
    with (Str.all_chars Str.char_isalnum (String c s)).
  rewrite <- lower_all_alnum. reflexivity.
Qed.

Lemma check_length_bounds field lo hi v r :
  check_length field (Some lo) (Some hi) v = inr r <->
  r = v /\ lo <= Str.len v <= hi.
Proof.
  unfold check_length.
  destruct (Z.ltb_spec (Str.len v) lo), (Z.ltb_spec hi (Str.len v));
    split; intros Hr; try discriminate; try (destruct Hr; lia).
  - injection Hr as <-. split; [reflexivity | lia].
  - destruct Hr as [-> _]. reflexivity.
Qed.

Lemma check_length_min field lo v r :
  check_length field (Some lo) None v = inr r <->
  r = v /\ lo <= Str.len v.
Proof.
  unfold check_length.
  destruct (Z.ltb_spec (Str.len v) lo);
    split; intros Hr; try discriminate; try (destruct Hr; lia).
  - injection Hr as <-. split; [reflexivity | lia].
  - destruct Hr as [-> _]. reflexivity.
Qed.

Lemma check_length_max field hi v r :
  check_length field None (Some hi) v = inr r <->
  r = v /\ Str.len v <= hi.
Proof.
  unfold check_length.
  destruct (Z.ltb_spec hi (Str.len v));
    split; intros Hr; try discriminate; try (destruct Hr; lia).
  - injection Hr as <-. split; [reflexivity | lia].
  - destruct Hr as [-> _]. reflexivity.
Qed.

Lemma validate_username_accepts v r :
  validate_username v = inr r <->
  exists u, v = Some u /\ Str.isalnum u = true /\ 3 <= Str.len u <= 50
            /\ r = Str.lower u.
Proof.
  unfold validate_username, required, and_then, username_alphanumeric.
  destruct v as [u|]; [|split; [discriminate | intros (? & [=] & _)]].
  destruct (check_length "username" (Some 3) (Some 50) u) as [e|u'] eqn:Hlen.
  - split; [discriminate|]. intros (u0 & [= <-] & _ & Hbounds & _).
    assert (check_length "username" (Some 3) (Some 50) u = inr u) as Hok
        by (apply check_length_bounds; auto).
    congruence.
  - apply check_length_bounds in Hlen as [-> Hbounds].
    destruct (Str.isalnum u) eqn:Halnum; simpl.
    + split; [intros [= <-]; eauto 6 | intros (u0 & [= <-] & _ & _ & ->)];
        reflexivity.
    + split; [discriminate | intros (u0 & [= <-] & ? & _); congruence].
Qed.

Section ValidationSpec.
Variable validate_email : string -> option string.

Lemma validate_email_field_accepts v r :
  validate_email_field validate_email v = inr r <->
  exists e, v = Some e /\ validate_email e = Some r.
Proof.
  unfold validate_email_field, required, and_then.
  destruct v as [e|]; [|split; [discriminate | intros (? & [=] & _)]].
  destruct (validate_email e) as [n|] eqn:Hvalid.
  - split; [intros [= <-]; eauto | intros (e0 & [= <-] & Hn); congruence].
  - split; [discriminate | intros (e0 & [= <-] & Hn); congruence].
Qed.

Lemma validate_password_accepts v r :
  validate_password v = inr r <->
  exists p, v = Some p /\ 8 <= Str.len p /\ r = p.
Proof.
  unfold validate_password, required, and_then.
  destruct v as [p|]; [|split; [discriminate | intros (? & [=] & _)]].
  rewrite check_length_min.
  split; [intros [-> ?]; eauto | intros (p0 & [= <-] & ? & ->); auto].
Qed.

Lemma validate_full_name_accepts v r :
  validate_full_name v = inr r <->
  r = v /\ (v = None \/ exists f, v = Some f /\ Str.len f <= 100).
Proof.
  unfold validate_full_name, and_then.
  destruct v as [f|]; [|split; [intros [= <-]; auto | intros [-> _]; auto]].
  destruct (check_length "full_name" None (Some 100) f) as [e|f'] eqn:Hlen.
  - split; [discriminate|].
    intros [_ [[=] | (f0 & [= <-] & Hbound)]].
    assert (check_length "full_name" None (Some 100) f = inr f) as Hok
        by (apply check_length_max; auto).
    congruence.
  - apply check_length_max in Hlen as [-> Hbound].
    split; [intros [= <-]; eauto | intros [-> _]; reflexivity].
Qed.

(** The model is built exactly when every field validator accepts. *)
Lemma UserCreate_validate_accepts input user :
  UserCreate_validate validate_email input = inr user <->
  validate_username (in_username input) = inr (uc_username user)
  /\ validate_email_field validate_email (in_email input) =
       inr (uc_email user)
  /\ validate_password (in_password input) = inr (uc_password user)
  /\ validate_full_name (in_full_name input) = inr (uc_full_name user).
Proof.
  unfold UserCreate_validate.
  destruct (validate_username (in_username input)) as [e1|u],
    (validate_email_field validate_email (in_email input)) as [e2|e],
    (validate_password (in_password input)) as [e3|p],
    (validate_full_name (in_full_name input)) as [e4|f];
    (split; [intros Hbuilt; try discriminate Hbuilt
            |intros (Hu & He & Hp & Hf); try discriminate]).
  - injection Hbuilt as <-. auto.
  - destruct user; simpl in *. congruence.
Qed.

Lemma UserCreate_validate_errors input errors :
  UserCreate_validate validate_email input = inl errors -> errors <> [].
Proof.
  unfold UserCreate_validate.
  destruct (validate_username (in_username input)) as [e1|u],
    (validate_email_field validate_email (in_email input)) as [e2|e],
    (validate_password (in_password input)) as [e3|p],
    (validate_full_name (in_full_name input)) as [e4|f];
    intros [= <-]; discriminate.
Qed.

(** C5.  [UserCreate] accepts a body exactly when the username is
    alphanumeric and 3 to 50 characters long, the e-mail is accepted by
    the e-mail validation, the password has at least 8 characters and
    the full name is absent or has at most 100 characters; a body that
    is not accepted is answered with a non-empty list of validation
    errors. *)
Theorem UserCreate_accepts_exactly_valid_input input :
  ((exists user, UserCreate_validate validate_email input = inr user) <->
   (exists username,
       in_username input = Some username
       /\ Str.isalnum username = true
       /\ 3 <= Str.len username <= 50)
   /\ (exists email normalised,
          in_email input = Some email
          /\ validate_email email = Some normalised)
   /\ (exists password,
          in_password input = Some password /\ 8 <= Str.len password)
   /\ (in_full_name input = None
       \/ exists full_name,
            in_full_name input = Some full_name
            /\ Str.len full_name <= 100))
  /\ (forall errors,
        UserCreate_validate validate_email input = inl errors ->
        errors <> []).
Proof.
  split; [|apply UserCreate_validate_errors].
  split.
  - intros [user Hbuilt].
    apply UserCreate_validate_accepts in Hbuilt as (Hu & He & Hp & Hf).
    apply validate_username_accepts in Hu as (u & ? & ? & ? & _).
    apply validate_email_field_accepts in He as (e & ? & ?).
    apply validate_password_accepts in Hp as (p & ? & ? & _).
    apply validate_full_name_accepts in Hf as [_ Hf].
    split; [eauto|]. split; [eauto|]. split; [eauto|]. exact Hf.
  - intros ((u & Hu & Halnum & Hlen) & (e & n & He & Hn)
            & (p & Hp & Hplen) & Hf).
    exists {| uc_username := Str.lower u; uc_email := n; uc_password := p;
              uc_full_name := in_full_name input |}.
    apply UserCreate_validate_accepts; simpl.
    split; [apply validate_username_accepts; eauto 6|].
    split; [apply validate_email_field_accepts; eauto|].
    split; [apply validate_password_accepts; eauto|].
    apply validate_full_name_accepts; auto.
Qed.

End ValidationSpec.

(** *** The properties on the reference environment *)

Lemma get_current_user_guards_users_routes_witness :
  (exists detail w' t,
      get_current_user InMemory.World InMemory.perform
        (Some "Token alice-token") InMemory.initial =
        (Raises (HTTPException 401 detail [("WWW-Authenticate", "Bearer")]),
         w', t)
      /\ app InMemory.World InMemory.perform
           (GET_user (Some "Token alice-token") "u1") InMemory.initial =
           ({| status_code := 401;
               headers := [("WWW-Authenticate", "Bearer")];
               content := JSON_object (<["detail" := VStr detail]> ∅) |},
            w', t)
      /\ forallb is_validate_call t = true)
  /\ (get_current_user InMemory.World InMemory.perform
        (Some "Bearer alice-token") InMemory.initial =
        (Returns InMemory.alice, InMemory.initial,
         [Called (validate_jwt_token "alice-token")])
      /\ status_code
           (response InMemory.World
              (app InMemory.World InMemory.perform
                 (GET_user (Some "Bearer alice-token") "u1")
                 InMemory.initial)) <> 401).
Proof.
  split.
  - apply (proj1 (get_current_user_guards_users_routes
                    InMemory.World InMemory.perform
                    (GET_user (Some "Token alice-token") "u1")
                    InMemory.initial eq_refl)).
    right; left. exists "Token alice-token". split; reflexivity.
  - apply (proj2 (get_current_user_guards_users_routes
                    InMemory.World InMemory.perform
                    (GET_user (Some "Bearer alice-token") "u1")
                    InMemory.initial eq_refl)
             "Bearer alice-token" InMemory.alice InMemory.initial);
      reflexivity.
Defined.

Lemma forbidden_exactly_without_privilege_witness :
  status_code
    (response InMemory.World
       (app InMemory.World InMemory.perform
          (DELETE_user (Some "Bearer alice-token") "u1")
          InMemory.initial)) = 403.
Proof.
  apply (proj1 (forbidden_exactly_without_privilege
                  InMemory.World InMemory.perform
                  (DELETE_user (Some "Bearer alice-token") "u1")
                  InMemory.initial InMemory.alice InMemory.initial
                  [Called (validate_jwt_token "alice-token")]
                  eq_refl eq_refl)).
  reflexivity.
Defined.

Lemma not_found_exactly_when_absent_witness :
  status_code
    (response InMemory.World
       (app InMemory.World InMemory.perform
          (PATCH_user (Some "Bearer root-token") "nobody"
             {| uu_email := None; uu_full_name := Some (Some "N. N.");
                uu_password := None |})
          InMemory.initial)) = 404.
Proof.
  apply (proj1 (not_found_exactly_when_absent
                  InMemory.World InMemory.perform
                  (PATCH_user (Some "Bearer root-token") "nobody"
                     {| uu_email := None;
                        uu_full_name := Some (Some "N. N.");
                        uu_password := None |})
                  "nobody" InMemory.initial InMemory.root InMemory.initial
                  [Called (validate_jwt_token "root-token")]
                  eq_refl eq_refl
                  (ex_intro _ (VStr "u0")
                     (conj eq_refl (or_intror eq_refl))))).
  exists InMemory.initial. reflexivity.
Defined.

Lemma create_user_conflict_is_atomic_witness :
  app InMemory.World InMemory.perform
    (POST_users (Some "Bearer alice-token")
       {| uc_username := "bob"; uc_email := "robert@example.com";
          uc_password := "battery staple"; uc_full_name := None |})
    InMemory.initial =
    ({| status_code := 409; headers := [];
        content :=
          JSON_object
            (<["detail" := VStr "Username or email already exists"]> ∅) |},
     InMemory.initial,
     [Called (validate_jwt_token "alice-token");
      Called (db_find_user_by_username_or_email "bob"
                "robert@example.com")]).
Proof.
  exact (proj2 (create_user_conflict_is_atomic
                  InMemory.World InMemory.perform
                  (Some "Bearer alice-token")
                  {| uc_username := "bob";
                     uc_email := "robert@example.com";
                     uc_password := "battery staple";
                     uc_full_name := None |}
                  InMemory.initial InMemory.alice InMemory.initial
                  [Called (validate_jwt_token "alice-token")]
                  InMemory.bob InMemory.initial eq_refl eq_refl)).
Defined.

(** C4 as stated fails: with a clock that moves between two readings the
    record is created with [created_at = 1000] and [updated_at = 1001]. *)
Lemma create_user_timestamps_differ :
  ~ (forall (W : Type) (perform : forall X, Call X -> W -> Answer X * W)
            authorization user_data w created_at updated_at,
        In (created_at, updated_at)
           (created_timestamps
              (log (app W perform (POST_users authorization user_data) w)))
        -> created_at = updated_at).
Proof.
  intros Hequal.
  specialize (Hequal InMemory.World InMemory.perform
                (Some "Bearer alice-token") InMemory.carol
                InMemory.initial 1000 1001).
  assert (1000 = 1001) as Habsurd by (apply Hequal; left; reflexivity).
  discriminate Habsurd.
Qed.

Lemma create_user_conflict_or_created_witness :
  app InMemory.World InMemory.perform
    (POST_users (Some "Bearer alice-token") InMemory.carol)
    InMemory.initial =
    ({| status_code := 201; headers := [];
        content :=
          JSON_user
            {| r_id := "u"; r_username := "carol";
               r_email := "carol@example.com";
               r_full_name := Some "Carol";
               r_created_at := 1000; r_updated_at := 1001 |} |},
     {| InMemory.clock := 1002; InMemory.serial := 1;
        InMemory.rows :=
          [InMemory.bob;
           {| u_id := "u"; u_username := "carol";
              u_email := "carol@example.com";
              u_password_hash := "hashed:correct horse";
              u_full_name := Some "Carol";
              u_created_at := 1000; u_updated_at := 1001 |}] |},
     [Called (validate_jwt_token "alice-token");
      Called (db_find_user_by_username_or_email "carol"
                "carol@example.com");
      Called (hash_password (VStr "correct horse"));
      Called uuid4; Called utcnow; Called utcnow;
      Called (db_create_user "u" "carol" "carol@example.com"
                "hashed:correct horse" (Some "Carol") 1000 1001)]).
Proof.
  exact (proj2 (create_user_conflict_or_created
                  InMemory.World InMemory.perform
                  (Some "Bearer alice-token") InMemory.carol
                  InMemory.initial InMemory.alice InMemory.initial
                  [Called (validate_jwt_token "alice-token")] eq_refl)
           _ _ _ _ _ _ _ _ _ _ _
           eq_refl eq_refl eq_refl eq_refl eq_refl eq_refl).
Defined.

Lemma list_users_pagination_witness :
  exists total_pages,
    app InMemory.World InMemory.perform
      (GET_users (Some "Bearer alice-token") 2 500 None) InMemory.initial =
      ({| status_code := 200; headers := [];
          content :=
            JSON_user_list
              {| data := [];
                 pagination :=
                   <["page" := VInt 2]>
                     (<["per_page" := VInt 100]>
                        (<["total" := VInt 1]>
                           (<["total_pages" := VInt total_pages]> ∅))) |} |},
       InMemory.initial,
       [Called (validate_jwt_token "alice-token");
        Called (db_list_users 100 100 None)])
    /\ 1 <= total_pages * 100
    /\ (total_pages - 1) * 100 < 1.
Proof.
  destruct (list_users_pagination InMemory.World InMemory.perform
              (Some "Bearer alice-token") 2 500 None
              InMemory.initial InMemory.alice InMemory.initial
              [Called (validate_jwt_token "alice-token")] [] 1
              InMemory.initial
              ltac:(lia) ltac:(lia) eq_refl eq_refl)
    as (total_pages & _ & Happ & _ & _ & Hle & Hlt).
  exists total_pages. split; [exact Happ|]. split; [exact Hle | exact Hlt].
Defined.


End ApiSpec.

(* ===================================================================== *)
(** * Further properties of the fixtures *)
(* ===================================================================== *)

Module FixturesMore.
Import Fixtures.

Section Spec.
Variable W : Type.
Variable perform : forall X, Call X -> W -> Answer X * W.

(** X1.  When every call of [database_connection] returns, the run of a
    test ends with the outcome of the test body, a failure included: the
    fixture adds its calls around the body and does not mask its
    result. *)
Theorem database_connection_keeps_test_outcome B
    (test : Database -> Py.M Call W B) w db w1 w2 w4 w5 u u' u'' :
  perform _ (Database_connect "test_db") w = (Ans db, w1) ->
  perform _ (create_tables db) w1 = (Ans u, w2) ->
  perform _ (drop_tables db) (world (test db w2)) = (Ans u', w4) ->
  perform _ (close db) w4 = (Ans u'', w5) ->
  run_test W (database_connection W perform) test w =
    (outcome (test db w2), w5,
     [Called (Database_connect "test_db"); Called (create_tables db)]
     ++ log (test db w2)
     ++ [Called (drop_tables db); Called (close db)]).
Proof.
  intros Hconnect Hcreate Hdrop Hclose.
  unfold run_test, database_connection, yield.
  unfold bind at 1. unfold bind at 1. unfold call at 1.
  rewrite Hconnect. unfold bind at 1. unfold call at 1. rewrite Hcreate.
  unfold ret at 1. simpl.
  destruct (test db w2) as [[r w3] t] eqn:Htest.
  unfold world, log, outcome in *; simpl in *.
  unfold bind, call. rewrite Hdrop, Hclose. simpl. reflexivity.
Qed.

(** X2.  When [drop_tables] fails in the teardown, [close] is never
    called: the run ends with that failure and the log stops at
    [drop_tables]. *)
Theorem database_connection_drop_failure_skips_close B
    (test : Database -> Py.M Call W B) w db w1 w2 w4 u what :
  perform _ (Database_connect "test_db") w = (Ans db, w1) ->
  perform _ (create_tables db) w1 = (Ans u, w2) ->
  perform _ (drop_tables db) (world (test db w2)) = (Failure what, w4) ->
  run_test W (database_connection W perform) test w =
    (Raises (ExternalError what), w4,
     [Called (Database_connect "test_db"); Called (create_tables db)]
     ++ log (test db w2) ++ [Called (drop_tables db)]).
Proof.
  intros Hconnect Hcreate Hdrop.
  unfold run_test, database_connection, yield.
  unfold bind at 1. unfold bind at 1. unfold call at 1.
  rewrite Hconnect. unfold bind at 1. unfold call at 1. rewrite Hcreate.
  unfold ret at 1. simpl.
  destruct (test db w2) as [[r w3] t] eqn:Htest.
  unfold world, log, outcome in *; simpl in *.
  unfold bind, call. rewrite Hdrop. simpl. reflexivity.
Qed.

(** X3.  When [create_tables] fails in the set-up, the test body does not
    run and nothing is torn down: the connection that was opened is
    neither dropped nor closed. *)
Theorem database_connection_create_failure_leaks B
    (test : Database -> Py.M Call W B) w db w1 w2 what :
  perform _ (Database_connect "test_db") w = (Ans db, w1) ->
  perform _ (create_tables db) w1 = (Failure what, w2) ->
  run_test W (database_connection W perform) test w =
    (Raises (ExternalError what), w2,
     [Called (Database_connect "test_db"); Called (create_tables db)]).
Proof.
  intros Hconnect Hcreate.
  unfold run_test, database_connection, yield, bind, call.
  rewrite Hconnect, Hcreate. reflexivity.
Qed.
End Spec.

Lemma database_connection_keeps_test_outcome_witness :
  run_test TestDb.World
    (database_connection TestDb.World TestDb.perform)
    (test_create_user TestDb.World TestDb.perform) TestDb.initial =
    (Returns tt,
     {| TestDb.next_object := 8; TestDb.open_connections := [] |},
     [Called (Database_connect "test_db"); Called (create_tables 7%nat);
      Called (User_create 7%nat "newuser");
      Called (drop_tables 7%nat); Called (close 7%nat)]).
Proof.
  exact (database_connection_keeps_test_outcome TestDb.World TestDb.perform
           unit (test_create_user TestDb.World TestDb.perform)
           TestDb.initial 7%nat _ _ _ _ tt tt tt
           eq_refl eq_refl eq_refl eq_refl).
Defined.

Lemma database_connection_drop_failure_skips_close_witness :
  run_test nat (database_connection nat FlakyDb.perform)
    (test_create_user nat FlakyDb.perform) 3%nat =
    (Raises (ExternalError "OperationalError"), O,
     [Called (Database_connect "test_db"); Called (create_tables 7%nat);
      Called (User_create 7%nat "newuser"); Called (drop_tables 7%nat)]).
Proof.
  exact (database_connection_drop_failure_skips_close nat FlakyDb.perform
           unit (test_create_user nat FlakyDb.perform)
           3%nat 7%nat _ _ _ tt _ eq_refl eq_refl eq_refl).
Defined.

Lemma database_connection_create_failure_leaks_witness :
  run_test nat (database_connection nat FlakyDb.perform)
    (test_create_user nat FlakyDb.perform) 1%nat =
    (Raises (ExternalError "OperationalError"), O,
     [Called (Database_connect "test_db"); Called (create_tables 7%nat)]).
Proof.
  exact (database_connection_create_failure_leaks nat FlakyDb.perform
           unit (test_create_user nat FlakyDb.perform)
           1%nat 7%nat _ _ _ eq_refl eq_refl).
Defined.

End FixturesMore.

Module CatalogSpec.
Import Catalog.

Section Spec.
Variable W : Type.
Variable perform : forall X, Call X -> W -> Answer X * W.

(** X4.  [reset_state] surrounds a test: [clear_cache] and
    [reset_counters] are called, in that order, before the body, and
    [cleanup_temp_files] after it, whatever the body did.  When
    [clear_cache] fails, neither [reset_counters] nor the body nor the
    clean-up runs. *)
Theorem reset_state_surrounds_the_test B (test : unit -> Py.M Call W B)
    w w1 w2 u u' :
  perform _ clear_cache w = (Ans u, w1) ->
  perform _ reset_counters w1 = (Ans u', w2) ->
  log (Pytest.run_test (reset_state W perform) test w) =
    [Called clear_cache; Called reset_counters]
    ++ log (test tt w2) ++ [Called cleanup_temp_files]
  /\ (forall w0 what w0',
         perform _ clear_cache w0 = (Failure what, w0') ->
         Pytest.run_test (reset_state W perform) test w0 =
           (Raises (ExternalError what), w0', [Called clear_cache])).
Proof.
  intros Hclear Hreset. split.
  - unfold Pytest.run_test, reset_state, Pytest.yield.
    unfold bind at 1. unfold bind at 1. unfold call at 1. rewrite Hclear.
    unfold bind at 1. unfold call at 1. rewrite Hreset.
    unfold ret at 1. simpl.
    destruct (test tt w2) as [[r w3] t].
    unfold log, call; simpl.
    destruct (perform unit cleanup_temp_files w3) as [[x|what] w4];
      reflexivity.
  - intros w0 what w0' Hfail.
    unfold Pytest.run_test, reset_state, bind, call.
    rewrite Hfail. reflexivity.
Qed.

(** The tests of a module add no client of their own when none of them
    creates or closes one; and every test gets an outcome. *)
Lemma run_tests_lifecycle (client : APIClient)
    (tests : list (APIClient -> Py.M Call W unit)) :
  (forall test, In test tests ->
     forall w, List.filter is_client_lifecycle (log (test client w)) = []) ->
  forall w,
    List.filter is_client_lifecycle (log (Pytest.run_tests client tests w))
    = []
    /\ length (Pytest.run_tests client tests w).1.1 = length tests.
Proof.
  induction tests as [|test tests IH]; intros Hquiet w; [split; reflexivity|].
  simpl.
  pose proof (Hquiet test (or_introl eq_refl) w) as Htest.
  destruct (test client w) as [[r w1] t1].
  destruct (IH (fun t Hin => Hquiet t (or_intror Hin)) w1) as [Hrest Hlen].
  destruct (Pytest.run_tests client tests w1) as [[rs w2] t2].
  unfold log in *; simpl in *.
  rewrite List.filter_app, Htest, Hrest, Hlen. split; reflexivity.
Qed.


(** X6.  [test_api_call] with its fixtures resolved logs in once as
    ["testuser"] with ["password123"] and then requests ["/profile"] with
    the token that login returned, both on the client of the module; the
    test passes exactly when the answer has status 200. *)
Theorem test_api_call_uses_login_token client w token w1 response w2 :
  perform _ (client_login client "testuser" "password123") w =
    (Ans token, w1) ->
  perform _ (client_get client "/profile" token) w1 = (Ans response, w2) ->
  run_test_api_call W perform client w =
    (if Z.eqb (status_code response) 200
     then Returns tt
     else Raises (ExternalError "AssertionError"),
     w2,
     [Called (client_login client "testuser" "password123");
      Called (client_get client "/profile" token)]).
Proof.
  intros Hlogin Hget.
  unfold run_test_api_call, sample_user, authenticated_user, test_api_call,
    token_attribute, assertion, bind, call, ret, raise.
  simpl. rewrite Hlogin. simpl. rewrite Hget.
  destruct (Z.eqb (status_code response) 200); reflexivity.
Qed.

(** X7.  [test_multiple_engines] runs once per parameter of
    [database_engine], whatever the engines answer: three outcomes, and a
    [Database] is built for ["sqlite"], ["postgres"] and ["mysql"], in that
    order, a failure for one engine not stopping the next. *)
Theorem test_multiple_engines_runs_per_param w :
  engines_created (log (run_test_multiple_engines W perform w)) =
    database_engine_params
  /\ length (run_test_multiple_engines W perform w).1.1 = 3%nat.
Proof.
  unfold run_test_multiple_engines, database_engine_params, database_engine,
    test_multiple_engines, assertion.
  simpl. unfold bind, call, ret, raise, log.
  repeat match goal with
         | |- context [perform ?X ?c ?w] =>
             destruct (perform X c w) as [[[]|?] ?]; simpl
         end;
    split; reflexivity.
Qed.
End Spec.

Lemma reset_state_surrounds_the_test_witness :
  log (Pytest.run_test (reset_state TestClient.World TestClient.perform)
         (fun _ => run_test_api_call TestClient.World TestClient.perform
                     3%nat)
         TestClient.initial) =
    [Called clear_cache; Called reset_counters;
     Called (client_login 3%nat "testuser" "password123");
     Called (client_get 3%nat "/profile" "token-testuser");
     Called cleanup_temp_files].
Proof.
  exact (proj1 (reset_state_surrounds_the_test
                  TestClient.World TestClient.perform unit
                  (fun _ => run_test_api_call TestClient.World
                              TestClient.perform 3%nat)
                  TestClient.initial _ _ tt tt eq_refl eq_refl)).
Defined.


Lemma test_api_call_uses_login_token_witness :
  run_test_api_call TestClient.World TestClient.perform 3%nat
    TestClient.initial =
    (Returns tt,
     {| TestClient.next_object := 3; TestClient.open_clients := [];
        TestClient.sessions := ["token-testuser"];
        TestClient.temp_files := 1 |},
     [Called (client_login 3%nat "testuser" "password123");
      Called (client_get 3%nat "/profile" "token-testuser")]).
Proof.
  exact (test_api_call_uses_login_token TestClient.World TestClient.perform
           3%nat TestClient.initial "token-testuser" _
           {| status_code := 200 |} _ eq_refl eq_refl).
Defined.

End CatalogSpec.

(* ===================================================================== *)
(** * Further properties of the endpoints *)
(* ===================================================================== *)

Module ApiMoreSpec.
Import Api ApiMore.

#[local] Arguments Str.startswith : simpl never.

(** ** Partial updates *)

(** X8.  [dict(exclude_unset=True)] has an entry exactly for the fields
    the client set: a field that was set maps to its value ([None] for
    [null]), a field that was not set has no entry, and there is no other
    key. *)
Theorem UserUpdate_dict_has_the_set_fields user_data :
  UserUpdate_dict user_data !! "email" = field_value <$> uu_email user_data
  /\ UserUpdate_dict user_data !! "full_name" =
       field_value <$> uu_full_name user_data
  /\ UserUpdate_dict user_data !! "password" =
       field_value <$> uu_password user_data
  /\ (forall k,
         k <> "email" -> k <> "full_name" -> k <> "password" ->
         UserUpdate_dict user_data !! k = None).
Proof.
  destruct user_data as [[[e|]|] [[f|]|] [[p|]|]];
    unfold UserUpdate_dict, set_field; simpl;
    (split; [|split; [|split; [|intros k He Hf Hp]]]);
    by simplify_map_eq.
Qed.

Section Spec.
Variable W : Type.
Variable perform : forall X, Call X -> W -> Answer X * W.

(** X9.  Whatever the request and whatever the collaborators answer, a
    dictionary handed to [db.update_user] never holds the key
    ["password"], and it always holds an ["updated_at"] timestamp. *)
Theorem update_never_stores_plain_password request w d :
  In d (update_payloads (log (app W perform request w))) ->
  d !! "password" = None
  /\ exists now, d !! "updated_at" = Some (VDatetime now).
Proof.
  destruct request; simpl;
    unfold get_current_user, create_user, list_users, get_user,
      update_user, require_admin, delete_user, health_check;
    execute perform; intros Hin;
    repeat match goal with
           | H : _ \/ _ |- _ => destruct H as [<-|H]
           | H : False |- _ => destruct H
           end;
    (split; [by simplify_map_eq | eexists; by simplify_map_eq]).
Qed.

(** X10.  A [PATCH] whose body does not set [password] never calls
    [hash_password], whatever the collaborators answer. *)
Theorem patch_without_password_never_hashes
    authorization user_id user_data w :
  uu_password user_data = None ->
  hashed_passwords
    (log (app W perform (PATCH_user authorization user_id user_data) w))
  = [].
Proof.
  intros Hunset.
  pose proof (UserUpdate_dict_has_the_set_fields user_data)
    as (_ & _ & Hpassword & _).
  rewrite Hunset in Hpassword. simpl in Hpassword.
  simpl. unfold get_current_user, update_user.
  execute perform; try reflexivity; congruence.
Qed.

(** X11.  An authorised [PATCH] of an existing user that sets a password:
    the password is handed to [hash_password], and [db.update_user]
    receives the hash under ["password_hash"], the clock reading under
    ["updated_at"] and no ["password"]; the response is a 200 carrying the
    user [db.update_user] returned. *)
Theorem patch_hashes_the_new_password
    authorization user_id user_data w current_user w' t requester_id
    password existing w1 password_hash w2 now w3 updated w4 :
  get_current_user W perform authorization w =
    (Returns current_user, w', t) ->
  current_user !! "id" = Some requester_id ->
  VStr user_id = requester_id
  \/ truthy (dict_get current_user "is_admin") = true ->
  uu_password user_data = Some (Some password) ->
  perform _ (db_get_user user_id) w' = (Ans (Some existing), w1) ->
  perform _ (hash_password (VStr password)) w1 = (Ans password_hash, w2) ->
  perform _ utcnow w2 = (Ans now, w3) ->
  perform _ (db_update_user user_id
               (<["updated_at" := VDatetime now]>
                  (<["password_hash" := VStr password_hash]>
                     (delete "password" (UserUpdate_dict user_data))))) w3 =
    (Ans updated, w4) ->
  app W perform (PATCH_user authorization user_id user_data) w =
    ({| status_code := 200; headers := [];
        content := JSON_user (to_response updated) |},
     w4,
     t ++ [Called (db_get_user user_id);
           Called (hash_password (VStr password));
           Called utcnow;
           Called (db_update_user user_id
                     (<["updated_at" := VDatetime now]>
                        (<["password_hash" := VStr password_hash]>
                           (delete "password"
                              (UserUpdate_dict user_data)))))]).
Proof.
  intros Hdep Hid Hallowed Hset Hget Hhash Hnow Hupdate.
  pose proof (UserUpdate_dict_has_the_set_fields user_data)
    as (_ & _ & Hpassword & _).
  rewrite Hset in Hpassword. simpl in Hpassword.
  assert (bool_decide (VStr user_id <> requester_id)
          && negb (truthy (dict_get current_user "is_admin")) = false)
    as Hcheck.
  { destruct Hallowed as [Hself|Hadmin].
    - rewrite bool_decide_eq_false_2; [reflexivity | tauto].
    - rewrite Hadmin. apply andb_false_r. }
  rewrite (ApiSpec.app_authenticated W perform
             (PATCH_user authorization user_id user_data)
             _ _ _ _ eq_refl Hdep).
  unfold authenticated, following, update_user.
  unfold_monad; simpl. rewrite Hid; simpl. rewrite Hcheck.
  rewrite Hget; simpl. rewrite Hpassword; simpl. rewrite Hhash; simpl.
  rewrite Hnow; simpl. rewrite Hupdate; simpl. reflexivity.
Qed.


(** X13.  A [DELETE] by an admin of an existing user looks the user up,
    calls [db.delete_user] once with the id of the path and answers 204
    without content. *)
Theorem delete_by_admin_of_existing_user
    authorization user_id w current_user w' t existing w1 u w2 :
  get_current_user W perform authorization w =
    (Returns current_user, w', t) ->
  truthy (dict_get current_user "is_admin") = true ->
  perform _ (db_get_user user_id) w' = (Ans (Some existing), w1) ->
  perform _ (db_delete_user user_id) w1 = (Ans u, w2) ->
  app W perform (DELETE_user authorization user_id) w =
    ({| status_code := 204; headers := []; content := No_content |},
     w2,
     t ++ [Called (db_get_user user_id); Called (db_delete_user user_id)]).
Proof.
  intros Hdep Hadmin Hget Hdelete.
  rewrite (ApiSpec.app_authenticated W perform
             (DELETE_user authorization user_id) _ _ _ _ eq_refl Hdep).
  unfold authenticated, following, require_admin, delete_user.
  rewrite Hadmin. unfold_monad; simpl.
  rewrite Hget; simpl. rewrite Hdelete; simpl. reflexivity.
Qed.

(** ** What the routes never do *)

(** X14.  A request only performs the store write of its own method:
    [db.create_user] on [POST], [db.update_user] on [PATCH],
    [db.delete_user] on [DELETE]; a [GET] performs none. *)
Theorem store_writes_follow_the_method request w e method :
  In e (log (app W perform request w)) ->
  write_method e = Some method ->
  method_of request = method.
Proof.
  run_all_routes perform request; intros Hin Hwrite; each_event;
    simpl in Hwrite; congruence.
Qed.

(** X15.  A request makes at most one store write, and when it makes one
    it is the last call of the request. *)
Theorem at_most_one_store_write_and_last request w :
  List.filter is_store_write (log (app W perform request w)) = []
  \/ exists before e,
       log (app W perform request w) = before ++ [e]
       /\ is_store_write e = true
       /\ List.filter is_store_write before = [].
Proof.
  run_all_routes perform request;
    first
      [ left; reflexivity
      | right;
        match goal with
        | |- exists before e, ?l = _ /\ _ =>
            exists (removelast l), (List.last l (Called utcnow))
        end;
        repeat split; reflexivity ].
Qed.

(** X16.  No call reaches the store without authentication: a request
    whose log shows any [db] call carried a header starting with
    ["Bearer "] whose token [validate_jwt_token] accepted. *)
Theorem no_store_access_without_authentication request w e :
  In e (log (app W perform request w)) ->
  is_db_call e = true ->
  exists s current_user w',
    authorization_of request = Some s
    /\ Str.startswith s "Bearer " = true
    /\ perform _ (validate_jwt_token (token_of s)) w = (Ans current_user, w').
Proof.
  run_all_routes perform request; intros Hin Hdb; each_event;
    try discriminate Hdb; decode_tests; eauto 7.
Qed.

(** X17.  [db.delete_user] is only ever called on a [DELETE] of that very
    id, by a requester whose accepted token says admin, and after
    [db.get_user] found the user. *)
Theorem delete_only_by_admin_after_lookup request w user_id :
  In user_id (deleted_ids (log (app W perform request w))) ->
  exists s current_user w' existing w'',
    request = DELETE_user (Some s) user_id
    /\ perform _ (validate_jwt_token (token_of s)) w = (Ans current_user, w')
    /\ truthy (dict_get current_user "is_admin") = true
    /\ perform _ (db_get_user user_id) w' = (Ans (Some existing), w'').
Proof.
  run_all_routes perform request; intros Hin; each_event;
    decode_tests; eauto 9.
Qed.


(** X19.  A response carries the header [WWW-Authenticate: Bearer]
    exactly when its status is 401, and no header otherwise. *)
Theorem only_401_carries_a_header request w :
  (status_code (response W (app W perform request w)) = 401 ->
   headers (response W (app W perform request w)) =
     [("WWW-Authenticate", "Bearer")])
  /\ (status_code (response W (app W perform request w)) <> 401 ->
      headers (response W (app W perform request w)) = []).
Proof.
  run_all_routes perform request; autounfold with status;
    (split; [intros Hstatus; try discriminate Hstatus; reflexivity
            |intros Hstatus; try reflexivity; congruence]).
Qed.

(** ** The token *)

Lemma replace_without_occurrence old new s :
  contains s old = false -> Str.replace_from old new O s = s.
Proof.
  induction s as [|c s IH]; [reflexivity|].
  intros Habsent. simpl in Habsent.
  apply orb_false_iff in Habsent as [Hhere Hlater].
  simpl. rewrite Hhere, (IH Hlater). reflexivity.
Qed.

(** X20.  For a header made of ["Bearer "] and a rest in which
    ["Bearer "] does not occur again, the token is that rest, and it is
    what [validate_jwt_token] is asked about, once. *)
Theorem token_of_a_plain_header rest w :
  contains rest "Bearer " = false ->
  token_of ("Bearer " ++ rest) = rest
  /\ log (get_current_user W perform (Some ("Bearer " ++ rest)%string) w) =
       [Called (validate_jwt_token rest)].
Proof.
  intros Habsent.
  assert (token_of ("Bearer " ++ rest) = rest) as Htoken.
  { rewrite ApiSpec.bearer_token_strips_prefix.
    apply (replace_without_occurrence "Bearer " EmptyString rest Habsent). }
  split; [exact Htoken|].
  unfold get_current_user.
  change (Str.startswith ("Bearer " ++ rest) "Bearer ") with true.
  change (truthy (VStr ("Bearer " ++ rest))) with true.
  simpl. rewrite Htoken.
  execute perform; reflexivity.
Qed.

Lemma token_of_repeated_prefix n rest :
  token_of (bearer_times n rest) = token_of rest.
Proof.
  induction n as [|n IH]; [reflexivity|].
  simpl bearer_times. rewrite ApiSpec.bearer_token_strips_prefix. exact IH.
Qed.

Lemma get_current_user_bearer rest w :
  get_current_user W perform (Some ("Bearer " ++ rest)%string) w =
  try_except
    (let* user := call perform (validate_jwt_token (token_of rest)) in
     ret user)
    (fun _ =>
       raise (HTTPException 401 "Invalid token"
                [("WWW-Authenticate", "Bearer")])) w.
Proof. reflexivity. Qed.

(** X21.  Every occurrence of ["Bearer "] is removed from the header, not
    only the first: a header that repeats the prefix any number of times
    is authenticated as the header with a single prefix is. *)
Theorem repeated_prefix_is_ignored n rest w :
  get_current_user W perform (Some (bearer_times (S n) rest)) w
  = get_current_user W perform (Some ("Bearer " ++ rest)%string) w.
Proof.
  simpl bearer_times. rewrite !get_current_user_bearer.
  rewrite token_of_repeated_prefix. reflexivity.
Qed.

(** X30.  An authenticated [GET] of an existing user answers 200 with the
    public fields of the user the store returned, after that one lookup
    and nothing else. *)
Theorem get_user_returns_the_stored_user
    authorization user_id w current_user w' t user w1 :
  get_current_user W perform authorization w =
    (Returns current_user, w', t) ->
  perform _ (db_get_user user_id) w' = (Ans (Some user), w1) ->
  app W perform (GET_user authorization user_id) w =
    ({| status_code := 200; headers := [];
        content :=
          JSON_user
            {| r_id := u_id user; r_username := u_username user;
               r_email := u_email user; r_full_name := u_full_name user;
               r_created_at := u_created_at user;
               r_updated_at := u_updated_at user |} |},
     w1, t ++ [Called (db_get_user user_id)]).
Proof.
  intros Hdep Hget.
  rewrite (ApiSpec.app_authenticated W perform
             (GET_user authorization user_id) _ _ _ _ eq_refl Hdep).
  unfold authenticated, following, get_user.
  unfold_monad; simpl. rewrite Hget. reflexivity.
Qed.

(** ** Pagination *)

(** X22.  For any [limit], an authenticated listing asks the store
    exactly once, for [min(limit, 100)] users: never more than 100, and
    a limit below 1 is passed on as it is. *)
Theorem list_users_asks_once_for_at_most_100
    authorization page limit search w current_user w' t :
  get_current_user W perform authorization w =
    (Returns current_user, w', t) ->
  log (app W perform (GET_users authorization page limit search) w) =
    t ++ [Called (db_list_users ((page - 1) * Z.min limit 100)
                    (Z.min limit 100) search)]
  /\ Z.min limit 100 <= 100
  /\ (limit <= 100 -> Z.min limit 100 = limit).
Proof.
  intros Hdep.
  split; [|lia].
  rewrite (ApiSpec.app_authenticated W perform
             (GET_users authorization page limit search)
             _ _ _ _ eq_refl Hdep).
  unfold authenticated, following, list_users.
  rewrite ApiSpec.clamp_limit.
  execute perform; reflexivity.
Qed.


(** X24.  With [limit >= 1], the pagination object repeats [page] and
    [total] as they are; an empty result has [total_pages = 0], and a
    result that fits one page has [total_pages = 1]. *)
Theorem pagination_of_small_results
    page limit search current_user w users total w1 :
  1 <= limit ->
  perform _ (db_list_users ((page - 1) * Z.min limit 100)
               (Z.min limit 100) search) w = (Ans (users, total), w1) ->
  exists pages,
    outcome (list_users W perform page limit search current_user w) =
      Returns (users, pages)
    /\ pages !! "page" = Some (VInt page)
    /\ pages !! "total" = Some (VInt total)
    /\ (total = 0 -> pages !! "total_pages" = Some (VInt 0))
    /\ (1 <= total <= Z.min limit 100 ->
        pages !! "total_pages" = Some (VInt 1)).
Proof.
  intros Hlimit Hlist.
  assert (1 <= Z.min limit 100) as Hper_page by lia.
  assert (Z.eqb (Z.min limit 100) 0 = false) as Hnonzero
      by (apply Z.eqb_neq; lia).
  eexists. split.
  { unfold list_users. rewrite ApiSpec.clamp_limit.
    unfold_monad. rewrite Hlist. simpl. rewrite Hnonzero. reflexivity. }
  split; [reflexivity|]. split; [reflexivity|]. split.
  - intros ->. rewrite !lookup_insert_ne by discriminate.
    rewrite lookup_insert_eq. do 2 f_equal.
    apply Z.div_small. lia.
  - intros Hfits. rewrite !lookup_insert_ne by discriminate.
    rewrite lookup_insert_eq. do 2 f_equal.
    symmetry. apply (Z.div_unique _ _ 1 (total - 1)); lia.
Qed.

(** ** The health check *)


(** ** Creation *)

(** X26.  A [POST] that answers 201 created exactly one record, and a
    [POST] that answers 401 or 409 created none. *)
Theorem post_creates_one_record_or_none authorization user_data w :
  (status_code
     (response W (app W perform (POST_users authorization user_data) w))
   = 201 ->
   length (created_timestamps
             (log (app W perform (POST_users authorization user_data) w)))
   = 1%nat)
  /\ (status_code
        (response W (app W perform (POST_users authorization user_data) w))
      <> 201 ->
      status_code
        (response W (app W perform (POST_users authorization user_data) w))
      <> 500 ->
      created_timestamps
        (log (app W perform (POST_users authorization user_data) w)) = []).
Proof.
  simpl. unfold get_current_user, create_user.
  execute perform; autounfold with status;
    (split; [intros Hstatus; try discriminate Hstatus; reflexivity
            |intros Hnot_created Hnot_error;
             try reflexivity; congruence]).
Qed.
End Spec.

(** ** Validation *)


Section ValidationSpec.
Variable validate_email : string -> option string.

(** X28.  A validated [UserCreate] holds the password and the full name
    exactly as they were submitted, and for the e-mail the address the
    e-mail validation returned. *)
Theorem UserCreate_keeps_password_and_name input user :
  UserCreate_validate validate_email input = inr user ->
  in_password input = Some (uc_password user)
  /\ uc_full_name user = in_full_name input
  /\ exists email,
       in_email input = Some email
       /\ validate_email email = Some (uc_email user).
Proof.
  intros Hbuilt.
  apply ApiSpec.UserCreate_validate_accepts in Hbuilt as (_ & He & Hp & Hf).
  apply ApiSpec.validate_email_field_accepts in He.
  apply ApiSpec.validate_password_accepts in Hp as (p & Hp & _ & ->).
  apply ApiSpec.validate_full_name_accepts in Hf as [-> _].
  auto.
Qed.

Lemma optional_accepts check v r :
  optional check v = inr r <->
  match v with
  | Some (Some s) => exists s', check s = inr s' /\ r = Some (Some s')
  | _ => r = v
  end.
Proof.
  unfold optional, and_then.
  destruct v as [[s|]|]; try (split; [intros [= <-] | intros ->]; reflexivity).
  destruct (check s) as [e|s'].
  - split; [discriminate | intros (? & [=] & _)].
  - split; [intros [= <-]; eauto | intros (? & [= <-] & ->); reflexivity].
Qed.

Lemma optional_accepted check v :
  (exists r, optional check v = inr r) <->
  (forall s, v = Some (Some s) -> exists s', check s = inr s').
Proof.
  split.
  - intros [r Hr] s ->. apply optional_accepts in Hr as (s' & Hs' & _).
    eauto.
  - intros Hcheck. destruct v as [[s|]|]; simpl; eauto.
    destruct (Hcheck s eq_refl) as [s' Hs']. unfold and_then.
    rewrite Hs'. eauto.
Qed.

Lemma UserUpdate_validate_accepts input user_data :
  UserUpdate_validate validate_email input = inr user_data <->
  optional (check_email validate_email) (upd_email input) =
    inr (uu_email user_data)
  /\ optional (check_length "full_name" None (Some 100))
       (upd_full_name input) = inr (uu_full_name user_data)
  /\ optional (check_length "password" (Some 8) None)
       (upd_password input) = inr (uu_password user_data).
Proof.
  unfold UserUpdate_validate.
  destruct (optional (check_email validate_email) (upd_email input))
    as [e1|e],
    (optional (check_length "full_name" None (Some 100))
       (upd_full_name input)) as [e2|f],
    (optional (check_length "password" (Some 8) None) (upd_password input))
    as [e3|p];
    (split; [intros Hbuilt; try discriminate Hbuilt
            |intros (He & Hf & Hp); try discriminate]).
  - injection Hbuilt as <-. auto.
  - destruct user_data; simpl in *. congruence.
Qed.

(** X29.  [UserUpdate] accepts a body exactly when every field that holds
    a string passes its rule (a valid e-mail, a full name of at most 100
    characters, a password of at least 8); absent fields and [null] are
    always accepted.  In the validated model a field is set exactly when
    the body held it, and full name and password are unchanged. *)
Theorem UserUpdate_accepts_partial_bodies input :
  ((exists user_data,
       UserUpdate_validate validate_email input = inr user_data) <->
   (forall email,
       upd_email input = Some (Some email) ->
       exists normalised, validate_email email = Some normalised)
   /\ (forall full_name,
          upd_full_name input = Some (Some full_name) ->
          Str.len full_name <= 100)
   /\ (forall password,
          upd_password input = Some (Some password) ->
          8 <= Str.len password))
  /\ (forall user_data,
        UserUpdate_validate validate_email input = inr user_data ->
        uu_full_name user_data = upd_full_name input
        /\ uu_password user_data = upd_password input
        /\ (uu_email user_data = None <-> upd_email input = None)).
Proof.
  split; [split|].
  - intros [user_data Hbuilt].
    apply UserUpdate_validate_accepts in Hbuilt as (He & Hf & Hp).
    split; [|split].
    + intros email Hemail.
      destruct (proj1 (optional_accepted _ _) (ex_intro _ _ He) _ Hemail)
        as [s' Hs'].
      unfold check_email in Hs'.
      destruct (validate_email email); [eauto | discriminate].
    + intros full_name Hname.
      destruct (proj1 (optional_accepted _ _) (ex_intro _ _ Hf) _ Hname)
        as [s' Hs'].
      apply ApiSpec.check_length_max in Hs'. tauto.
    + intros password Hpassword.
      destruct (proj1 (optional_accepted _ _) (ex_intro _ _ Hp) _ Hpassword)
        as [s' Hs'].
      apply ApiSpec.check_length_min in Hs'. tauto.
  - intros (Hemail & Hname & Hpassword).
    assert (exists e, optional (check_email validate_email)
                        (upd_email input) = inr e) as [e He].
    { apply optional_accepted. intros s Hs.
      destruct (Hemail s Hs) as [n Hn]. unfold check_email.
      rewrite Hn. eauto. }
    assert (exists f, optional (check_length "full_name" None (Some 100))
                        (upd_full_name input) = inr f) as [f Hf].
    { apply optional_accepted. intros s Hs. exists s.
      apply ApiSpec.check_length_max. auto. }
    assert (exists p, optional (check_length "password" (Some 8) None)
                        (upd_password input) = inr p) as [p Hp].
    { apply optional_accepted. intros s Hs. exists s.
      apply ApiSpec.check_length_min. auto. }
    exists {| uu_email := e; uu_full_name := f; uu_password := p |}.
    apply UserUpdate_validate_accepts. auto.
  - intros user_data Hbuilt.
    apply UserUpdate_validate_accepts in Hbuilt as (He & Hf & Hp).
    apply optional_accepts in He, Hf, Hp.
    split; [|split].
    + destruct (upd_full_name input) as [[s|]|]; try assumption.
      destruct Hf as (s' & Hcheck & ->).
      apply ApiSpec.check_length_max in Hcheck as [-> _]. reflexivity.
    + destruct (upd_password input) as [[s|]|]; try assumption.
      destruct Hp as (s' & Hcheck & ->).
      apply ApiSpec.check_length_min in Hcheck as [-> _]. reflexivity.
    + destruct (upd_email input) as [[s|]|].
      * destruct He as (s' & _ & ->). split; discriminate.
      * rewrite He. split; discriminate.
      * rewrite He. tauto.
Qed.
End ValidationSpec.

(** ** The properties on the reference environment *)

Lemma update_never_stores_plain_password_witness :
  (<["updated_at" := VDatetime 1000]>
     (<["password_hash" := VStr "hashed:new password"]>
        (delete "password"
           (UserUpdate_dict
              {| uu_email := None; uu_full_name := None;
                 uu_password := Some (Some "new password") |})))
   : dict) !! "password" = None
  /\ exists now,
      (<["updated_at" := VDatetime 1000]>
         (<["password_hash" := VStr "hashed:new password"]>
            (delete "password"
               (UserUpdate_dict
                  {| uu_email := None; uu_full_name := None;
                     uu_password := Some (Some "new password") |})))
       : dict) !! "updated_at" = Some (VDatetime now).
Proof.
  apply (update_never_stores_plain_password
           InMemory.World InMemory.perform
           (PATCH_user (Some "Bearer alice-token") "u1"
              {| uu_email := None; uu_full_name := None;
                 uu_password := Some (Some "new password") |})
           InMemory.initial).
  left. reflexivity.
Defined.

Lemma patch_without_password_never_hashes_witness :
  hashed_passwords
    (log (app InMemory.World InMemory.perform
            (PATCH_user (Some "Bearer alice-token") "u1"
               {| uu_email := None; uu_full_name := Some (Some "Bob B.");
                  uu_password := None |})
            InMemory.initial)) = [].
Proof.
  exact (patch_without_password_never_hashes
           InMemory.World InMemory.perform
           (Some "Bearer alice-token") "u1"
           {| uu_email := None; uu_full_name := Some (Some "Bob B.");
              uu_password := None |}
           InMemory.initial eq_refl).
Defined.

Lemma patch_hashes_the_new_password_witness :
  exists updated final,
    app InMemory.World InMemory.perform
      (PATCH_user (Some "Bearer alice-token") "u1"
         {| uu_email := None; uu_full_name := None;
            uu_password := Some (Some "new password") |})
      InMemory.initial =
      ({| status_code := 200; headers := [];
          content := JSON_user (to_response updated) |},
       final,
       [Called (validate_jwt_token "alice-token");
        Called (db_get_user "u1");
        Called (hash_password (VStr "new password"));
        Called utcnow;
        Called (db_update_user "u1"
                  (<["updated_at" := VDatetime 1000]>
                     (<["password_hash" := VStr "hashed:new password"]>
                        (delete "password"
                           (UserUpdate_dict
                              {| uu_email := None; uu_full_name := None;
                                 uu_password :=
                                   Some (Some "new password") |})))))])
    /\ u_password_hash updated = "hashed:new password".
Proof.
  eexists _, _. split.
  - exact (patch_hashes_the_new_password
             InMemory.World InMemory.perform
             (Some "Bearer alice-token") "u1"
             {| uu_email := None; uu_full_name := None;
                uu_password := Some (Some "new password") |}
             InMemory.initial InMemory.alice InMemory.initial
             [Called (validate_jwt_token "alice-token")]
             (VStr "u1") "new password" InMemory.bob _ _ _ _ _ _ _
             eq_refl eq_refl (or_introl eq_refl) eq_refl
             eq_refl eq_refl eq_refl eq_refl).
  - reflexivity.
Defined.


Lemma delete_by_admin_of_existing_user_witness :
  app InMemory.World InMemory.perform
    (DELETE_user (Some "Bearer root-token") "u1") InMemory.initial =
    ({| status_code := 204; headers := []; content := No_content |},
     {| InMemory.clock := 1000; InMemory.serial := 0;
        InMemory.rows := [] |},
     [Called (validate_jwt_token "root-token");
      Called (db_get_user "u1"); Called (db_delete_user "u1")]).
Proof.
  exact (delete_by_admin_of_existing_user
           InMemory.World InMemory.perform
           (Some "Bearer root-token") "u1"
           InMemory.initial InMemory.root InMemory.initial
           [Called (validate_jwt_token "root-token")]
           InMemory.bob InMemory.initial tt _
           eq_refl eq_refl eq_refl eq_refl).
Defined.

Lemma store_writes_follow_the_method_witness :
  method_of (DELETE_user (Some "Bearer root-token") "u1") = DELETE.
Proof.
  apply (store_writes_follow_the_method
           InMemory.World InMemory.perform
           (DELETE_user (Some "Bearer root-token") "u1")
           InMemory.initial (Called (db_delete_user "u1")) DELETE).
  - right; right; left. reflexivity.
  - reflexivity.
Defined.

Lemma no_store_access_without_authentication_witness :
  exists s current_user w',
    Some "Bearer alice-token" = Some s
    /\ Str.startswith s "Bearer " = true
    /\ InMemory.perform _ (validate_jwt_token (token_of s))
         InMemory.initial = (Ans current_user, w').
Proof.
  apply (no_store_access_without_authentication
           InMemory.World InMemory.perform
           (GET_user (Some "Bearer alice-token") "u1")
           InMemory.initial (Called (db_get_user "u1"))).
  - right; left. reflexivity.
  - reflexivity.
Defined.

Lemma delete_only_by_admin_after_lookup_witness :
  exists s current_user w' existing w'',
    DELETE_user (Some "Bearer root-token") "u1" =
      DELETE_user (Some s) "u1"
    /\ InMemory.perform _ (validate_jwt_token (token_of s))
         InMemory.initial = (Ans current_user, w')
    /\ truthy (dict_get current_user "is_admin") = true
    /\ InMemory.perform _ (db_get_user "u1") w' =
         (Ans (Some existing), w'').
Proof.
  apply (delete_only_by_admin_after_lookup
           InMemory.World InMemory.perform
           (DELETE_user (Some "Bearer root-token") "u1")
           InMemory.initial "u1").
  left. reflexivity.
Defined.

Lemma token_of_a_plain_header_witness :
  token_of "Bearer alice-token" = "alice-token"
  /\ log (get_current_user InMemory.World InMemory.perform
            (Some "Bearer alice-token") InMemory.initial) =
       [Called (validate_jwt_token "alice-token")].
Proof.
  exact (token_of_a_plain_header InMemory.World InMemory.perform
           "alice-token" InMemory.initial eq_refl).
Defined.

Lemma get_user_returns_the_stored_user_witness :
  app InMemory.World InMemory.perform
    (GET_user (Some "Bearer alice-token") "u1") InMemory.initial =
    ({| status_code := 200; headers := [];
        content :=
          JSON_user
            {| r_id := "u1"; r_username := "bob";
               r_email := "bob@example.com"; r_full_name := None;
               r_created_at := 10; r_updated_at := 10 |} |},
     InMemory.initial,
     [Called (validate_jwt_token "alice-token");
      Called (db_get_user "u1")]).
Proof.
  exact (get_user_returns_the_stored_user
           InMemory.World InMemory.perform
           (Some "Bearer alice-token") "u1"
           InMemory.initial InMemory.alice InMemory.initial
           [Called (validate_jwt_token "alice-token")]
           InMemory.bob InMemory.initial eq_refl eq_refl).
Defined.

Lemma list_users_asks_once_for_at_most_100_witness :
  log (app InMemory.World InMemory.perform
         (GET_users (Some "Bearer alice-token") 3 (-5) None)
         InMemory.initial) =
    [Called (validate_jwt_token "alice-token");
     Called (db_list_users (-10) (-5) None)].
Proof.
  exact (proj1 (list_users_asks_once_for_at_most_100
                  InMemory.World InMemory.perform
                  (Some "Bearer alice-token") 3 (-5) None
                  InMemory.initial InMemory.alice InMemory.initial
                  [Called (validate_jwt_token "alice-token")] eq_refl)).
Defined.


Lemma pagination_of_small_results_witness :
  exists pages,
    outcome (list_users InMemory.World InMemory.perform 1 20 None
               InMemory.alice InMemory.initial) =
      Returns ([InMemory.bob], pages)
    /\ pages !! "total_pages" = Some (VInt 1).
Proof.
  destruct (pagination_of_small_results InMemory.World InMemory.perform
              1 20 None InMemory.alice InMemory.initial
              [InMemory.bob] 1 InMemory.initial ltac:(lia) eq_refl)
    as (pages & Hrun & _ & _ & _ & Hone).
  exists pages. split; [exact Hrun | apply Hone; lia].
Defined.

Lemma UserCreate_keeps_password_and_name_witness :
  Some "Correct Horse" = Some "Correct Horse"
  /\ Some "Alice A." = Some "Alice A."
  /\ exists email,
       Some "alice@example.com" = Some email
       /\ InMemory.validate_email email = Some "alice@example.com".
Proof.
  exact (UserCreate_keeps_password_and_name InMemory.validate_email
           {| in_username := Some "Alice42";
              in_email := Some "alice@example.com";
              in_password := Some "Correct Horse";
              in_full_name := Some "Alice A." |}
           {| uc_username := "alice42"; uc_email := "alice@example.com";
              uc_password := "Correct Horse";
              uc_full_name := Some "Alice A." |}
           eq_refl).
Defined.
End ApiMoreSpec.
